(** * MIM-Runbook: the runbook content generator

    A shallow embedding of [src/servers/runbook-generator/src/runbook-generator.ts]
    (function [generateRunbook] and everything it calls) together with the
    record types of [types.ts], followed by theorems about role resolution,
    category routing, the action and escalation ledgers, the e-mail
    recipient lists and the derived chat-channel names.

    Modelling conventions.
    - A JavaScript string is a [string]; the texts of the generator are
      written in UTF-8, one [ascii] per byte.  [toLowerCase] folds the
      letters A..Z only, so the development speaks about inputs whose
      case-sensitive letters are ASCII letters.
    - [T | null] and optional fields are [option T]; truthiness tests of the
      source ([s.bridge_url], [incident.region ? .. : ..], [x || y]) are
      written out.
    - The mutable closure state of [generateRunbook] ([actionItems],
      [actionCounter]) is threaded by a small state monad.
    - The two services of the JavaScript runtime the generator calls are
      inputs of the model: the clock read by [new Date().toISOString()] is
      the argument [now], and the date parser behind
      [new Date(iso).toISOString()] is the section variable
      [Date_toISOString]. *)

From Stdlib Require Import String Ascii List Arith Bool Lia DecimalString.
Import ListNotations.
Local Open Scope list_scope.
Local Open Scope string_scope.

(* ================================================================== *)
(** * JavaScript string primitives used by the generator *)
(* ================================================================== *)

Module JS.

(** The line feed written [\n] in the source. *)
Definition nl : string := String "010"%char EmptyString.

(** The double quote character. *)
Definition dq : string := String "034"%char EmptyString.

Definition isUpper (c : ascii) : bool :=
  (65 <=? nat_of_ascii c)%nat && (nat_of_ascii c <=? 90)%nat.

Definition isLower (c : ascii) : bool :=
  (97 <=? nat_of_ascii c)%nat && (nat_of_ascii c <=? 122)%nat.

Definition isDigit (c : ascii) : bool :=
  (48 <=? nat_of_ascii c)%nat && (nat_of_ascii c <=? 57)%nat.

Definition lowerChar (c : ascii) : ascii :=
  if isUpper c then ascii_of_nat (nat_of_ascii c + 32) else c.

(** [s.toLowerCase()] *)
Fixpoint toLowerCase (s : string) : string :=
  match s with
  | EmptyString => EmptyString
  | String c s' => String (lowerChar c) (toLowerCase s')
  end.

(** [s.includes(sub)]: [sub] occurs in [s] at some position. *)
Fixpoint includes (s sub : string) : bool :=
  String.prefix sub s ||
  match s with
  | EmptyString => false
  | String _ s' => includes s' sub
  end.

(** [s] without its first [n] characters. *)
Fixpoint drop (n : nat) (s : string) : string :=
  match n, s with
  | O, _ => s
  | S _, EmptyString => EmptyString
  | S n', String _ s' => drop n' s'
  end.

(** [s.replace(pat, rep)] for a literal pattern (a string, or a regular
    expression made of literal characters without the [g] flag) and a
    replacement without [$] patterns: the leftmost occurrence is
    replaced. *)
Fixpoint replaceFirst (pat rep s : string) : string :=
  if String.prefix pat s then rep ++ drop (String.length pat) s
  else match s with
       | EmptyString => EmptyString
       | String c s' => String c (replaceFirst pat rep s')
       end.

(** [s.replace(/[^a-z0-9]/g, "")] *)
Fixpoint stripNonAlnum (s : string) : string :=
  match s with
  | EmptyString => EmptyString
  | String c s' =>
      if isLower c || isDigit c then String c (stripNonAlnum s')
      else stripNonAlnum s'
  end.

(** Does [s] consist of digits followed by a final [Z]?  [seen] records
    that at least one digit was read. *)
Fixpoint digitsThenZ (seen : bool) (s : string) : bool :=
  match s with
  | EmptyString => false
  | String c s' =>
      if isDigit c then digitsThenZ true s'
      else seen && Ascii.eqb c "Z"%char &&
           match s' with EmptyString => true | _ => false end
  end.

(** [s.replace(/\.\d+Z$/, rep)] *)
Fixpoint replaceFractionZ (rep s : string) : string :=
  match s with
  | EmptyString => EmptyString
  | String c s' =>
      if Ascii.eqb c "."%char && digitsThenZ false s' then rep
      else String c (replaceFractionZ rep s')
  end.

(** [xs.join(sep)] *)
Fixpoint join (sep : string) (xs : list string) : string :=
  match xs with
  | [] => EmptyString
  | [x] => x
  | x :: rest => x ++ sep ++ join sep rest
  end.

(** [xs.map((x, i) => f(x, i))] *)
Fixpoint mapiFrom {A B : Type} (f : A -> nat -> B) (i : nat) (xs : list A) : list B :=
  match xs with
  | [] => []
  | x :: rest => f x i :: mapiFrom f (S i) rest
  end.

Definition mapi {A B : Type} (f : A -> nat -> B) (xs : list A) : list B :=
  mapiFrom f 0 xs.

(** [String(n)] for a non-negative integer [n]. *)
Definition String_ (n : nat) : string :=
  NilEmpty.string_of_uint (Nat.to_uint n).

Fixpoint repeatChar (n : nat) (c : ascii) : string :=
  match n with
  | O => EmptyString
  | S n' => String c (repeatChar n' c)
  end.

(** [s.padStart(targetLength, pad)] for a one-character [pad]. *)
Definition padStart (targetLength : nat) (pad : ascii) (s : string) : string :=
  repeatChar (targetLength - String.length s) pad ++ s.

(** [x || y] on strings: the empty string is falsy. *)
Definition orElse (x y : string) : string :=
  match x with
  | EmptyString => y
  | _ => x
  end.

(** Truthiness of an optional string: defined and not empty. *)
Definition truthy (x : option string) : bool :=
  match x with
  | Some (String _ _) => true
  | _ => false
  end.

(** [x ?? y] *)
Definition nullish {A : Type} (x : option A) (y : A) : A :=
  match x with
  | Some v => v
  | None => y
  end.

End JS.


(* ================================================================== *)
(** * Data model ([types.ts]) *)
(* ================================================================== *)

Module Incident.
Record t := mk {
  number : string;
  title : string;
  severity : string;
  priority : string;
  state : string;
  category : string;
  subcategory : string;
  affected_service : string;
  affected_ci : string;
  environment : string;
  region : option string;
  business_impact : string;
  opened_at : string;
  detected_at : option string;
  assigned_to : string;
  assignment_group : string;
  caller_id : string;
  short_description : string;
  description : string;
  change_related : bool;
  related_incident : string;
  resolution_notes : string;
  close_code : string
}.
End Incident.

(** [escalation_level] is a number the schema bounds by 1 and 3; the
    generator only ever compares it with 1, 2 and 3 by [===]. *)
Module Stakeholder.
Record t := mk {
  name : string;
  role : string;
  title : string;
  team : string;
  email : string;
  phone : string;
  slack : string;
  escalation_level : nat;
  notify_immediately : bool;
  bridge_url : option string;
  bridge_phone : option string
}.
End Stakeholder.

Module VendorEscalation.
Record t := mk {
  vendor : string;
  account_number : string;
  support_url : string;
  phone : string;
  severity_mapping : string
}.
End VendorEscalation.

Inductive AlertLevel : Type := AlertInfo | AlertWarning | AlertCritical.

Inductive ColorBand : Type := Red | Amber | Teal | Green | Navy.

Module EmailTemplate.
Record t := mk {
  phase : string;
  timing : string;
  to : list string;
  cc : list string;
  subject : string;
  body : string;
  colorBand : ColorBand
}.
End EmailTemplate.

Module Branch.
Record t := mk { condition : string; action : string }.
End Branch.

(** [RunbookBlock]: the [type] tag selects which optional fields are set. *)
Inductive RunbookBlock : Type :=
| heading (level : nat) (text : string)
| paragraph (text : string)
| checklist_item (text : string)
| numbered_step (stepNumber : nat) (text : string)
| command (text : string)
| table (rows : list (list string))
| decision_tree (condition : string) (branches : list Branch.t)
| email_template (emailTemplate : EmailTemplate.t)
| alert_box (alertLevel : AlertLevel) (text : string)
| bullet (items : list string).

Module RunbookSection.
Record t := mk {
  sectionNumber : nat;
  title : string;
  blocks : list RunbookBlock
}.
End RunbookSection.

Inductive Phase : Type := Triage | Comms | Diagnosis | Containment | Resolution.

Inductive Priority : Type := P1 | P2 | P3.

Inductive Status : Type := StatusOpen.

Module ActionItem.
Record t := mk {
  id : string;
  phase : Phase;
  action : string;
  owner : string;
  team : string;
  priority : Priority;
  status : Status;
  targetBy : string;
  notes : string
}.
End ActionItem.

Module EscalationEntry.
Record t := mk {
  id : string;
  contactName : string;
  role : string;
  method : string
}.
End EscalationEntry.

Module RunbookOutput.
Record t := mk {
  incident : Incident.t;
  stakeholders : list Stakeholder.t;
  vendors : list VendorEscalation.t;
  sections : list RunbookSection.t;
  emailTemplates : list EmailTemplate.t;
  actionItems : list ActionItem.t;
  escalationEntries : list EscalationEntry.t;
  generatedAt : string;
  slackChannel : string;
  zoomUrl : string;
  incidentCommander : option Stakeholder.t;
  technicalLead : option Stakeholder.t;
  commsLead : option Stakeholder.t
}.
End RunbookOutput.

(* ================================================================== *)
(** * The ledger state of one generation pass *)
(* ================================================================== *)

(** [actionItems] and [actionCounter] are local to one call of
    [generateRunbook] and are mutated through the closure [addAction]. *)
Record Ledger : Type := mkLedger {
  actionItems : list ActionItem.t;
  actionCounter : nat
}.

Definition M (A : Type) : Type := Ledger -> A * Ledger.

Definition ret {A : Type} (a : A) : M A := fun st => (a, st).

Definition bind {A B : Type} (m : M A) (k : A -> M B) : M B :=
  fun st => let (a, st') := m st in k a st'.

Declare Scope js_scope.
Delimit Scope js_scope with js.

Notation "x <- m ;; k" := (bind m (fun x => k))
  (at level 100, m at next level, right associativity) : js_scope.
Notation "m ;; k" := (bind m (fun _ => k))
  (at level 100, right associativity) : js_scope.

(** Optional chaining and nullish coalescing. *)
Definition chain {A B : Type} (o : option A) (f : A -> B) : option B :=
  option_map f o.

Definition chainOpt {A B : Type} (o : option A) (f : A -> option B) : option B :=
  match o with
  | Some x => f x
  | None => None
  end.

Notation "x ?? y" := (JS.nullish x y)
  (at level 61, right associativity) : js_scope.
Notation "o ?. f" := (chain o f)
  (at level 34, left associativity) : js_scope.
Notation "o ?.? f" := (chainOpt o f)
  (at level 34, left associativity) : js_scope.

Local Open Scope js_scope.
Import JS.

Definition AddActionFn : Type :=
  Phase -> string -> string -> string -> Priority -> string -> M unit.

(** The closure [addAction] of [generateRunbook].  No call site passes the
    optional argument [notes], so every item gets its default, the empty
    string. *)
Definition addAction : AddActionFn :=
  fun phase action owner team priority targetBy st =>
    let notes := "" in
    let actionCounter := st.(actionCounter) in
    (tt,
     {| actionItems :=
          (st.(actionItems) ++
           [ {| ActionItem.id := ("ACT-" ++ padStart 3 "0" (String_ actionCounter));
                ActionItem.phase := phase;
                ActionItem.action := action;
                ActionItem.owner := owner;
                ActionItem.team := team;
                ActionItem.priority := priority;
                ActionItem.status := StatusOpen;
                ActionItem.targetBy := targetBy;
                ActionItem.notes := notes |} ])%list;
        actionCounter := actionCounter + 1 |}).

(* ================================================================== *)
(** * Helpers *)
(* ================================================================== *)

Definition findByRole (stakeholders : list Stakeholder.t) (roleKeyword : string)
  : option Stakeholder.t :=
  find (fun s => includes (toLowerCase s.(Stakeholder.role)) (toLowerCase roleKeyword))
       stakeholders.

Definition getStakeholdersByLevel (level : nat) (immediateOnly : bool)
  (stakeholders : list Stakeholder.t) : list Stakeholder.t :=
  filter (fun s => (s.(Stakeholder.escalation_level) =? level)%nat &&
                   (negb immediateOnly || s.(Stakeholder.notify_immediately)))
         stakeholders.

Section Generator.

(** [Date_toISOString iso] is [new Date(iso).toISOString()]: the ISO
    rendering of the parsed date, or [None] when the date is invalid and
    [toISOString] throws. *)
Variable Date_toISOString : string -> option string.

Definition formatTimestamp (iso : string) : string :=
  match Date_toISOString iso with
  | Some d => replaceFractionZ " UTC" (replaceFirst "T" " " d)
  | None => iso
  end.

(* ================================================================== *)
(** * Section 1: Incident Summary Banner *)
(* ================================================================== *)

Definition buildSection1 (incident : Incident.t) : RunbookSection.t :=
  let blocks : list RunbookBlock := [
    table [

        ["Field"; "Value"];
        ["Incident Number"; incident.(Incident.number)];
        ["Title"; incident.(Incident.title)];
        ["Severity"; incident.(Incident.severity)];
        ["Priority"; incident.(Incident.priority)];
        ["State"; incident.(Incident.state)];
        ["Affected Service"; incident.(Incident.affected_service)];
        ["Affected CI / Resource"; incident.(Incident.affected_ci)];
        ["Environment"; (incident.(Incident.environment) ++ (match incident.(Incident.region) with Some (String c r) => " (" ++ String c r ++ ")" | _ => "" end))%string];
        ["Category"; (incident.(Incident.category) ++ " / " ++ incident.(Incident.subcategory))%string];
        ["Assigned To"; incident.(Incident.assigned_to)];
        ["Assignment Group"; incident.(Incident.assignment_group)];
        ["Reported By"; incident.(Incident.caller_id)];
        ["Opened At"; formatTimestamp incident.(Incident.opened_at)];
        ["Detected At"; formatTimestamp (incident.(Incident.detected_at) ?? incident.(Incident.opened_at))];
        ["Change Related"; if incident.(Incident.change_related) then "YES — investigate recent changes" else "No"];
        ["Related Incident"; orElse incident.(Incident.related_incident) "None"]
    ];
    paragraph "**Business Impact**";
    paragraph incident.(Incident.business_impact);
    alert_box AlertCritical ("⚠️  This is a Severity " ++ incident.(Incident.severity) ++ " incident. Every minute of delay costs revenue and customer trust. Follow this runbook from top to bottom without skipping steps.")%string
  ] in
  let blocks :=
    match incident.(Incident.description) with
    | EmptyString => blocks
    | _ =>
      (blocks ++ [
      paragraph "**Incident Description**";
      paragraph incident.(Incident.description)
      ])%list
    end in
  {| RunbookSection.sectionNumber := 1;
     RunbookSection.title := "Incident Summary Banner";
     RunbookSection.blocks := blocks |}.

(* ================================================================== *)
(** * Section 2: Immediate Triage Checklist (First 5 Minutes) *)
(* ================================================================== *)

Definition buildSection2 (incident : Incident.t) (ic : option Stakeholder.t)
  (zoomUrl slackChannel : string) (addAction : AddActionFn)
  : M RunbookSection.t :=
  addAction Triage ("Confirm alert is genuine — check " ++ incident.(Incident.affected_ci) ++ " directly")%string
    (ic ?. Stakeholder.name ?? "On-Call Engineer") (ic ?. Stakeholder.team ?? "Operations") P1 "T+2" ;;
  addAction Triage "Assess blast radius — identify all affected services and users"
    (ic ?. Stakeholder.name ?? "On-Call Engineer") (ic ?. Stakeholder.team ?? "Operations") P1 "T+3" ;;
  addAction Triage "Open Zoom bridge and Slack incident channel"
    (ic ?. Stakeholder.name ?? "On-Call Engineer") (ic ?. Stakeholder.team ?? "Operations") P1 "T+5" ;;
  addAction Triage "Page all immediate-notify stakeholders"
    (ic ?. Stakeholder.name ?? "On-Call Engineer") (ic ?. Stakeholder.team ?? "Operations") P1 "T+5" ;;
  let blocks : list RunbookBlock := [
    alert_box AlertWarning "Complete all steps in this section within 5 minutes of picking up the alert. Do not investigate root cause yet — your goal is to confirm, assess, and mobilise.";
    numbered_step 1 ("**T+0 — Confirm the alert is genuine.**" ++ nl ++ nl ++
         "Check that " ++ incident.(Incident.affected_ci) ++ " is actually unreachable or degraded. Do NOT assume the monitoring tool is always right — false positives happen." ++ nl ++ nl ++
         "Run: `ping " ++ incident.(Incident.affected_ci) ++ "` and `curl -I https://" ++ incident.(Incident.affected_ci) ++ "/health` (or equivalent health endpoint)" ++ nl ++ nl ++
         "If the CI responds normally → the alert may be a false positive. Acknowledge in monitoring and add a note to " ++ incident.(Incident.number) ++ " before standing down.")%string;
    numbered_step 2 ("**T+1 — Check the monitoring dashboard.**" ++ nl ++ nl ++
         "Open the primary monitoring dashboard for '" ++ incident.(Incident.affected_service) ++ "'. Look for:" ++ nl ++
         "• Red/critical alerts in the last 15 minutes" ++ nl ++
         "• Any correlated alerts (DB + App + Network firing together suggests a larger blast radius)" ++ nl ++
         "• Comparison to baseline from same time yesterday")%string;
    numbered_step 3 ("**T+2 — Assess blast radius.**" ++ nl ++ nl ++
         "Answer these questions before joining the bridge:" ++ nl ++
         "• How many users/customers are affected? (check active sessions, error rates)" ++ nl ++
         "• What downstream services depend on '" ++ incident.(Incident.affected_ci) ++ "'?" ++ nl ++
         "• Is this isolated to one region (" ++ (incident.(Incident.region) ?? "check all regions") ++ ") or multi-region?" ++ nl ++
         "• Are any other Sev1/Sev2 incidents currently open that could be related?")%string;
    numbered_step 4 ("**T+3 — Open the incident Slack channel.**" ++ nl ++ nl ++
         "Create channel: " ++ slackChannel ++ nl ++ nl ++
         "Paste this message as the first post:" ++ nl ++ nl ++
         "```" ++ nl ++
         "🚨 INCIDENT OPEN: " ++ incident.(Incident.number) ++ nl ++
         "Severity: " ++ incident.(Incident.severity) ++ nl ++
         "Service: " ++ incident.(Incident.affected_service) ++ nl ++
         "CI: " ++ incident.(Incident.affected_ci) ++ nl ++
         "Impact: " ++ incident.(Incident.business_impact) ++ nl ++
         "Bridge: " ++ zoomUrl ++ nl ++
         "Runbook: [paste link to this document]" ++ nl ++
         "IC: " ++ (ic ?. Stakeholder.name ?? "[Incident Commander]") ++ " (" ++ (ic ?. Stakeholder.slack ?? "[slack handle]") ++ ")" ++ nl ++
         "```")%string;
    numbered_step 5 ("**T+4 — Join the Zoom bridge call.**" ++ nl ++ nl ++
         "Bridge URL: " ++ zoomUrl ++ nl ++
         "Dial-in: " ++ (ic ?.? Stakeholder.bridge_phone ?? "[see stakeholders list]") ++ nl ++ nl ++
         "When you join, say:" ++ nl ++
         "> " ++ dq ++ "This is [YOUR NAME], I'm the on-call engineer. I'm declaring this a Sev1 for " ++ incident.(Incident.affected_service) ++ ". Incident number " ++ incident.(Incident.number) ++ ". " ++ (match ic ?. Stakeholder.name with Some (String c n) => String c n ++ " is the Incident Commander." | _ => "We need to assign an Incident Commander now." end) ++ " I'll begin triage while the team joins." ++ dq ++ nl ++ nl ++
         "Record the exact time you joined.")%string;
    numbered_step 6 ("**T+5 — Page immediate-notify stakeholders.**" ++ nl ++ nl ++
         "The following people must be notified RIGHT NOW (use phone if Slack is unresponsive):")%string
  ] in
  let immediateStakeholders := getStakeholdersByLevel 1 true [] in
  let blocks := (blocks ++ [
    table [
      ["Name"; "Role"; "Slack"; "Phone"];
      ["[IC_NAME]"; "Incident Commander"; "[IC_SLACK]"; "[IC_PHONE]"];
      ["[TECH_LEAD_NAME]"; "Technical Lead"; "[TECH_SLACK]"; "[TECH_PHONE]"];
      ["[COMMS_LEAD_NAME]"; "Communications Lead"; "[COMMS_SLACK]"; "[COMMS_PHONE]"]
    ]
  ])%list in
  ret {| RunbookSection.sectionNumber := 2;
         RunbookSection.title := "Immediate Triage Checklist (First 5 Minutes)";
         RunbookSection.blocks := blocks |}.


(* ================================================================== *)
(** * Section 3: Communication Plan *)
(* ================================================================== *)

Definition buildSection3 (incident : Incident.t) (stakeholders : list Stakeholder.t)
  (ic commsLead : option Stakeholder.t) (emailTemplates : list EmailTemplate.t)
  (addAction : AddActionFn) : M RunbookSection.t :=
  addAction Comms "Send Initial Incident Notification email (Template 1)"
    (commsLead ?. Stakeholder.name ?? "Comms Lead") (commsLead ?. Stakeholder.team ?? "Communications") P1 "T+5" ;;
  addAction Comms "Post Slack message to incident channel"
    (commsLead ?. Stakeholder.name ?? "Comms Lead") (commsLead ?. Stakeholder.team ?? "Communications") P1 "T+5" ;;
  addAction Comms "Send War Room Established email (Template 2)"
    (commsLead ?. Stakeholder.name ?? "Comms Lead") (commsLead ?. Stakeholder.team ?? "Communications") P1 "T+10" ;;
  addAction Comms "Send T+30 Status Update email (Template 3)"
    (commsLead ?. Stakeholder.name ?? "Comms Lead") (commsLead ?. Stakeholder.team ?? "Communications") P1 "T+30" ;;
  let blocks : list RunbookBlock := [
    paragraph ("**Communication Owner**: " ++ (commsLead ?. Stakeholder.name ?? "Comms Lead") ++ " (" ++ (commsLead ?. Stakeholder.slack ?? "assign a comms lead now") ++ ")")%string;
    paragraph "**Update Cadence**: Status updates every **30 minutes** until Sev1 is resolved, then final resolution email.";
    heading 2 "Stakeholder Role Map";
    table (
      ["Name"; "Role"; "Notify When"; "Method"; "Email"] ::
      map (fun s => [
          s.(Stakeholder.name);
          s.(Stakeholder.role);
          if (s.(Stakeholder.escalation_level) =? 1)%nat then "Immediately (T+0)" else
            if (s.(Stakeholder.escalation_level) =? 2)%nat then "T+30 or if not resolved" else "T+60 or if escalated";
          if s.(Stakeholder.notify_immediately) then "Phone + Slack + Email" else "Slack + Email";
          s.(Stakeholder.email)
        ]) stakeholders);
    heading 2 "Slack Communication Steps";
    numbered_step 1 ("Create Slack channel: **" ++ replaceFirst "inc" "#inc" (toLowerCase incident.(Incident.number)) ++ "** (format: `/incident-channel " ++ incident.(Incident.number) ++ "` or create manually)")%string;
    numbered_step 2 ("Invite the following people to the channel:" ++ nl ++
         join " " (map Stakeholder.slack (filter (fun s => (s.(Stakeholder.escalation_level) =? 1)%nat) stakeholders)))%string;
    numbered_step 3 "Pin the Incident Summary message at the top of the channel so all joiners see it immediately.";
    numbered_step 4 "Post a status update in the channel every 30 minutes, even if there is nothing new to report. Silence breeds rumour.";
    heading 2 "Email Templates";
    paragraph "Six ready-to-send email templates are provided below — one for each phase of the incident. Copy-paste the template, fill in the bracketed placeholders [LIKE THIS], and send."
  ] in
  let blocks :=
    (blocks ++ map (fun template => email_template template) emailTemplates)%list in
  ret {| RunbookSection.sectionNumber := 3;
         RunbookSection.title := "Communication Plan";
         RunbookSection.blocks := blocks |}.

(* ================================================================== *)
(** * Section 4: Diagnosis & Investigation *)
(* ================================================================== *)

Definition getDatabaseDiagnosisSteps (incident : Incident.t) : list RunbookBlock :=
  [
    numbered_step 1 ("**Check cluster/node health.**" ++ nl ++ nl ++
         "SSH to primary node: `ssh admin@" ++ incident.(Incident.affected_ci) ++ "`" ++ nl ++
         "Check cluster status:" ++ nl ++
         "```" ++ nl ++
         "# For Oracle RAC:" ++ nl ++
         "srvctl status database -d $(srvctl config database | head -1)" ++ nl ++
         "crsctl status resource -t | grep -E " ++ dq ++ "(ONLINE|OFFLINE|UNKNOWN)" ++ dq ++ nl ++ nl ++
         "# For MySQL/Aurora:" ++ nl ++
         "mysqlsh --uri admin@" ++ incident.(Incident.affected_ci) ++ " -- cluster.status()" ++ nl ++ nl ++
         "# For PostgreSQL:" ++ nl ++
         "psql -h " ++ incident.(Incident.affected_ci) ++ " -U postgres -c " ++ dq ++ "SELECT pg_is_in_recovery();" ++ dq ++ nl ++
         "```" ++ nl ++ nl ++
         "✅ **Good**: All nodes ONLINE, primary responding" ++ nl ++
         "❌ **Bad**: Nodes OFFLINE or UNKNOWN → proceed to Step 2" ++ nl ++
         "⚡ **Decision**: If all nodes show ONLINE but DB is unresponsive → go to Step 3 (connection pool exhaustion)")%string;
    numbered_step 2 ("**Check database error logs (last 30 minutes).**" ++ nl ++ nl ++
         "```" ++ nl ++
         "# Oracle alert log:" ++ nl ++
         "tail -500 /u01/app/oracle/diag/rdbms/*/*/trace/alert_*.log" ++ nl ++
         "grep -i " ++ dq ++ "ORA-" ++ dq ++ " /u01/app/oracle/diag/rdbms/*/*/trace/alert_*.log | tail -50" ++ nl ++ nl ++
         "# MySQL:" ++ nl ++
         "mysqlsh -- dba.getCluster().status()" ++ nl ++
         "tail -200 /var/log/mysql/error.log" ++ nl ++ nl ++
         "# PostgreSQL:" ++ nl ++
         "grep " ++ dq ++ "FATAL\|ERROR\|PANIC" ++ dq ++ " /var/log/postgresql/postgresql-*.log | tail -50" ++ nl ++
         "```" ++ nl ++ nl ++
         "✅ **Good**: Only routine messages" ++ nl ++
         "❌ **Bad**: ORA-04031 (shared pool), ORA-00060 (deadlocks), ORA-12170 (connection timeout) → document errors and go to Step 4")%string;
    numbered_step 3 ("**Check connection pool exhaustion.**" ++ nl ++ nl ++
         "```" ++ nl ++
         "# Oracle — check active sessions:" ++ nl ++
         "SELECT COUNT(*) FROM v$session WHERE status = 'ACTIVE';" ++ nl ++
         "SELECT value FROM v$parameter WHERE name = 'sessions';" ++ nl ++ nl ++
         "# Check for blocking sessions:" ++ nl ++
         "SELECT sid, serial#, username, blocking_session, seconds_in_wait, state, wait_class" ++ nl ++
         "FROM v$session" ++ nl ++
         "WHERE blocking_session IS NOT NULL;" ++ nl ++ nl ++
         "# Application side — check pool config:" ++ nl ++
         "# Look for POOL_SIZE, MAX_CONNECTIONS, CONNECTION_TIMEOUT in app config" ++ nl ++
         "```" ++ nl ++ nl ++
         "✅ **Good**: Active sessions < 80% of max sessions limit" ++ nl ++
         "❌ **Bad**: Sessions at max, or blocking sessions detected → go to Step 6 (kill blocking sessions as mitigation)" ++ nl ++
         "⚡ **Decision**: If connection pool is exhausted → go to Section 5, Step 3")%string;
    numbered_step 4 ("**Check replication lag (if applicable).**" ++ nl ++ nl ++
         "```" ++ nl ++
         "# MySQL replication:" ++ nl ++
         "SHOW SLAVE STATUS\G" ++ nl ++
         "# Look for: Seconds_Behind_Master (>60 = bad, >300 = critical)" ++ nl ++
         "# And: Slave_IO_Running: Yes, Slave_SQL_Running: Yes" ++ nl ++ nl ++
         "# PostgreSQL streaming replication:" ++ nl ++
         "SELECT client_addr, state, sent_lsn, write_lsn, flush_lsn, replay_lsn," ++ nl ++
         "  (sent_lsn - replay_lsn) AS replication_lag" ++ nl ++
         "FROM pg_stat_replication;" ++ nl ++
         "```" ++ nl ++ nl ++
         "✅ **Good**: Lag < 10 seconds, all replicas running" ++ nl ++
         "❌ **Bad**: Lag > 60 seconds or replica stopped → note for root cause; may need to failover to another replica")%string;
    numbered_step 5 ("**Check disk, CPU, and memory on the DB host.**" ++ nl ++ nl ++
         "```" ++ nl ++
         "top -b -n 1 | head -20" ++ nl ++
         "df -h | grep -E " ++ dq ++ "(Use%|/$)" ++ dq ++ nl ++
         "iostat -x 1 3" ++ nl ++
         "free -h" ++ nl ++
         "```" ++ nl ++ nl ++
         "✅ **Good**: CPU < 80%, Memory available > 20%, Disk < 85%, IO wait < 20%" ++ nl ++
         "❌ **Bad**: Any threshold breached → resource exhaustion is a likely contributing factor")%string;
    numbered_step 6 ("**Check recent DDL/DML changes and deployments (last 4 hours).**" ++ nl ++ nl ++
         "Query audit log or release tracker:" ++ nl ++
         "```" ++ nl ++
         "# Oracle:" ++ nl ++
         "SELECT username, timestamp, action_name, obj_name" ++ nl ++
         "FROM dba_audit_trail" ++ nl ++
         "WHERE timestamp > SYSDATE - (4/24)" ++ nl ++
         "ORDER BY timestamp DESC;" ++ nl ++
         "```" ++ nl ++ nl ++
         "Check deployment pipeline for any releases in last 4 hours: [CHECK YOUR DEPLOYMENT TOOL]" ++ nl ++ nl ++
         "⚡ **Decision**: If a deployment occurred within 2 hours of incident detection → this is your primary hypothesis. Go to Section 5 for rollback options.")%string;
    decision_tree "After completing all diagnosis steps, which best describes your findings?" [
        {| Branch.condition := "DB nodes are offline / cluster split-brain"; Branch.action := "Go to Section 5, Step 1: Cluster restart / failover" |};
        {| Branch.condition := "Connection pool exhausted, DB nodes healthy"; Branch.action := "Go to Section 5, Step 2: Connection pool flush and restart app tier" |};
        {| Branch.condition := "Blocking sessions preventing progress"; Branch.action := "Go to Section 5, Step 3: Kill blocking sessions" |};
        {| Branch.condition := "Recent deployment suspected"; Branch.action := "Go to Section 5, Step 4: Rollback deployment" |};
        {| Branch.condition := "Disk / memory / CPU exhaustion"; Branch.action := "Go to Section 5, Step 5: Resource remediation" |};
        {| Branch.condition := "None of the above / unclear"; Branch.action := "Escalate: page vendor support (see Section 6) and senior DBA now" |} ]
  ].

Definition getNetworkDiagnosisSteps (incident : Incident.t) : list RunbookBlock :=
  [
    numbered_step 1 ("**Confirm reachability from multiple vantage points.**" ++ nl ++ nl ++
         "```" ++ nl ++
         "# From your workstation:" ++ nl ++
         "ping -c 5 " ++ incident.(Incident.affected_ci) ++ nl ++
         "traceroute " ++ incident.(Incident.affected_ci) ++ nl ++
         "mtr --report " ++ incident.(Incident.affected_ci) ++ nl ++ nl ++
         "# From another host in the same region:" ++ nl ++
         "ssh jump-host " ++ dq ++ "ping -c 5 " ++ incident.(Incident.affected_ci) ++ dq ++ nl ++
         "ssh jump-host " ++ dq ++ "curl -o /dev/null -s -w '%{http_code}' https://" ++ incident.(Incident.affected_ci) ++ "/health" ++ dq ++ nl ++
         "```" ++ nl ++ nl ++
         "✅ **Good**: Reachable from all vantage points, <10ms latency" ++ nl ++
         "❌ **Bad**: Unreachable from some/all → packet loss indicates routing or firewall issue" ++ nl ++
         "⚡ **Decision**: If reachable from internal but not external → check firewall/CDN (Step 3)")%string;
    numbered_step 2 ("**Check routing tables and BGP status.**" ++ nl ++ nl ++
         "```" ++ nl ++
         "# Check routing:" ++ nl ++
         "ip route show" ++ nl ++
         "netstat -rn" ++ nl ++ nl ++
         "# For BGP environments (check with network team):" ++ nl ++
         "show ip bgp summary   # (on router/switch)" ++ nl ++
         "show ip route bgp" ++ nl ++ nl ++
         "# Check DNS resolution:" ++ nl ++
         "dig " ++ incident.(Incident.affected_ci) ++ nl ++
         "nslookup " ++ incident.(Incident.affected_ci) ++ nl ++
         "```" ++ nl ++ nl ++
         "✅ **Good**: Correct routes present, BGP peers UP, DNS resolves correctly" ++ nl ++
         "❌ **Bad**: Missing routes, BGP peer DOWN, DNS returns wrong IP → network team escalation required")%string;
    numbered_step 3 ("**Check firewall and security group rules.**" ++ nl ++ nl ++
         "Verify no rule was recently changed that blocks traffic to/from " ++ incident.(Incident.affected_ci) ++ ":" ++ nl ++
         "```" ++ nl ++
         "# Linux firewall:" ++ nl ++
         "sudo iptables -L -n -v | head -50" ++ nl ++
         "sudo firewall-cmd --list-all" ++ nl ++ nl ++
         "# AWS Security Groups (if applicable):" ++ nl ++
         "aws ec2 describe-security-groups --group-ids [SG_ID] --query 'SecurityGroups[*].IpPermissions'" ++ nl ++
         "```" ++ nl ++ nl ++
         "⚡ **Decision**: If a rule was changed in last 4 hours → revert the change (Section 5)")%string;
    numbered_step 4 ("**Check CDN and load balancer health.**" ++ nl ++ nl ++
         "Verify CDN edge nodes are serving traffic and not returning errors:" ++ nl ++
         "```" ++ nl ++
         "curl -I -H " ++ dq ++ "Host: " ++ incident.(Incident.affected_service) ++ dq ++ " https://[CDN_EDGE_IP]/health" ++ nl ++
         "curl -I https://" ++ incident.(Incident.affected_service) ++ "/health" ++ nl ++
         "```" ++ nl ++ nl ++
         "Check load balancer health page in your cloud console or management tool. Look for:" ++ nl ++
         "• Backend instance health checks failing" ++ nl ++
         "• SSL certificate expiry (check expiry date)" ++ nl ++
         "• Origin connection errors")%string;
    decision_tree "What did network diagnosis reveal?" [
        {| Branch.condition := "BGP peer down or routing change"; Branch.action := "Section 5, Step 1: Revert routing change or failover to backup link" |};
        {| Branch.condition := "Firewall rule blocking traffic"; Branch.action := "Section 5, Step 2: Revert firewall rule change" |};
        {| Branch.condition := "DNS misconfiguration"; Branch.action := "Section 5, Step 3: Fix DNS record and force propagation" |};
        {| Branch.condition := "CDN/Load balancer issue"; Branch.action := "Section 5, Step 4: Bypass CDN or failover load balancer" |};
        {| Branch.condition := "Unresolved — no root cause found"; Branch.action := "Escalate to Senior Network Engineer and vendor (Section 6)" |} ]
  ].

Definition getApplicationDiagnosisSteps (incident : Incident.t) : list RunbookBlock :=
  [
    numbered_step 1 ("**Check error rate and latency in APM.**" ++ nl ++ nl ++
         "Open your APM dashboard (DataDog / New Relic / Dynatrace / CloudWatch) for '" ++ incident.(Incident.affected_service) ++ "'." ++ nl ++ nl ++
         "Look for:" ++ nl ++
         "• Error rate > 1% (baseline) → is it now 10%? 50%? 100%?" ++ nl ++
         "• P99 latency spike (when did it spike? correlates to deployment or upstream change?)" ++ nl ++
         "• Specific endpoints/operations with highest error rates" ++ nl ++ nl ++
         "✅ **Good**: Error rate and latency within normal range" ++ nl ++
         "❌ **Bad**: Error rate > 5% or P99 > 10x baseline → record exact error types and go to Step 2")%string;
    numbered_step 2 ("**Check application error logs.**" ++ nl ++ nl ++
         "```" ++ nl ++
         "# Kubernetes pods:" ++ nl ++
         "kubectl logs -n production deployment/" ++ incident.(Incident.affected_ci) ++ " --since=30m | grep -i " ++ dq ++ "error\|fatal\|exception" ++ dq ++ " | tail -100" ++ nl ++
         "kubectl get events -n production --sort-by='.lastTimestamp' | tail -30" ++ nl ++ nl ++
         "# Docker:" ++ nl ++
         "docker logs " ++ incident.(Incident.affected_ci) ++ " --since 30m 2>&1 | grep -i " ++ dq ++ "error\|fatal" ++ dq ++ " | tail -100" ++ nl ++ nl ++
         "# Traditional host:" ++ nl ++
         "sudo journalctl -u " ++ incident.(Incident.affected_ci) ++ " --since " ++ dq ++ "30 minutes ago" ++ dq ++ " | grep -i " ++ dq ++ "error\|fatal" ++ dq ++ nl ++
         "tail -200 /var/log/" ++ incident.(Incident.affected_ci) ++ "/app.log | grep -i " ++ dq ++ "ERROR\|FATAL" ++ dq ++ nl ++
         "```" ++ nl ++ nl ++
         "✅ **Good**: Normal log volume, no new error patterns" ++ nl ++
         "❌ **Bad**: New error patterns (NullPointerException, ConnectionRefused, OutOfMemoryError) → record and go to Step 4")%string;
    numbered_step 3 ("**Check deployment history (last 4 hours).**" ++ nl ++ nl ++
         "Check your deployment pipeline (Jenkins / GitHub Actions / ArgoCD / Spinnaker) for:" ++ nl ++
         "• Any deployment to " ++ incident.(Incident.affected_ci) ++ " or its dependencies in last 4 hours" ++ nl ++
         "• Time of deployment vs. time of first alert (within 15 minutes = likely causal)" ++ nl ++
         "• What changed: code diff, config change, feature flag change" ++ nl ++ nl ++
         "⚡ **Decision**: Deployment within 2 hours → go to Section 5, Step 1 for rollback")%string;
    numbered_step 4 ("**Check feature flags and configuration.**" ++ nl ++ nl ++
         "If your org uses a feature flag system (LaunchDarkly / Flagsmith / Unleash):" ++ nl ++
         "• Check if any flag was recently toggled for " ++ incident.(Incident.affected_service) ++ nl ++
         "• Check for config changes in your config management system (Consul / etcd / AWS Parameter Store)" ++ nl ++ nl ++
         "```" ++ nl ++
         "# Example: AWS Parameter Store change history" ++ nl ++
         "aws ssm get-parameter-history --name /prod/" ++ incident.(Incident.affected_ci) ++ "/config --max-items 5" ++ nl ++
         "```" ++ nl ++ nl ++
         "✅ **Good**: No flag or config changes in last 4 hours" ++ nl ++
         "❌ **Bad**: Flag/config changed recently → Section 5, Step 2: revert flag/config")%string;
    decision_tree "Application diagnosis outcome?" [
        {| Branch.condition := "Recent deployment identified"; Branch.action := "Section 5, Step 1: Rollback deployment" |};
        {| Branch.condition := "Feature flag / config change"; Branch.action := "Section 5, Step 2: Revert flag or config" |};
        {| Branch.condition := "Memory leak / OOM"; Branch.action := "Section 5, Step 3: Restart pods/instances, then investigate heap dumps" |};
        {| Branch.condition := "Upstream dependency failure (DB, API, cache)"; Branch.action := "Investigate the upstream dependency: restart diagnosis loop for that CI" |};
        {| Branch.condition := "No clear cause"; Branch.action := "Escalate to senior engineer; consider blue/green failover (Section 5, Step 4)" |} ]
  ].

Definition getCloudInfraDiagnosisSteps (incident : Incident.t) : list RunbookBlock :=
  [
    numbered_step 1 ("**Check cloud provider status and AZ health.**" ++ nl ++ nl ++
         "Before assuming your config is broken, check if the cloud provider has an active incident:" ++ nl ++
         "• AWS: https://health.aws.amazon.com/health/status" ++ nl ++
         "• Azure: https://azure.status.microsoft/" ++ nl ++
         "• GCP: https://status.cloud.google.com/" ++ nl ++ nl ++
         "If there is an active provider-side incident → note the incident ID, post to Slack, and move to Section 5, Step 5 (failover to backup region)." ++ nl ++ nl ++
         "✅ **Good**: All provider services operational in " ++ (incident.(Incident.region) ?? "your region") ++ nl ++
         "❌ **Bad**: Provider incident active → escalate to vendor (Section 6) and prepare failover")%string;
    numbered_step 2 ("**Check compute instance / container health.**" ++ nl ++ nl ++
         "```" ++ nl ++
         "# AWS EC2:" ++ nl ++
         "aws ec2 describe-instance-status --instance-ids [INSTANCE_IDS] --include-all-instances" ++ nl ++
         "aws ec2 get-console-output --instance-id [INSTANCE_ID]" ++ nl ++ nl ++
         "# Kubernetes:" ++ nl ++
         "kubectl get nodes -o wide" ++ nl ++
         "kubectl get pods -n production -o wide | grep -v " ++ dq ++ "Running\|Completed" ++ dq ++ nl ++
         "kubectl describe node [UNHEALTHY_NODE]" ++ nl ++ nl ++
         "# Check autoscaling:" ++ nl ++
         "aws autoscaling describe-auto-scaling-groups --auto-scaling-group-names [ASG_NAME]" ++ nl ++
         "```" ++ nl ++ nl ++
         "✅ **Good**: All instances running/healthy, node Ready, autoscaling group healthy" ++ nl ++
         "❌ **Bad**: Instances impaired, nodes NotReady → check instance logs and system events")%string;
    numbered_step 3 ("**Check IAM / permission changes.**" ++ nl ++ nl ++
         "A permission change can silently break services (S3 access denied, RDS connection refused):" ++ nl ++
         "```" ++ nl ++
         "# AWS CloudTrail (last 4 hours):" ++ nl ++
         "aws cloudtrail lookup-events \" ++ nl ++
         "  --start-time $(date -u -v-4H +%Y-%m-%dT%H:%M:%SZ) \" ++ nl ++
         "  --lookup-attributes AttributeKey=EventName,AttributeValue=PutRolePolicy" ++ nl ++ nl ++
         "# Also check: DeleteBucketPolicy, RevokeSecurityGroupIngress" ++ nl ++
         "```" ++ nl ++ nl ++
         "⚡ **Decision**: If IAM change found near incident start time → revert the permission change")%string;
    decision_tree "Cloud/Infra diagnosis outcome?" [
        {| Branch.condition := "Provider-side AZ/region incident"; Branch.action := "Section 5, Step 5: Failover to secondary region" |};
        {| Branch.condition := "Compute instances impaired"; Branch.action := "Section 5, Step 1: Replace/restart impaired instances" |};
        {| Branch.condition := "IAM/permission change"; Branch.action := "Section 5, Step 2: Revert IAM change via CloudTrail event" |};
        {| Branch.condition := "Autoscaling stuck or misconfigured"; Branch.action := "Section 5, Step 3: Manually scale out, fix ASG policy" |};
        {| Branch.condition := "Unknown"; Branch.action := "Escalate to cloud architect; open cloud provider P1 case (Section 6)" |} ]
  ].

Definition getSecurityDiagnosisSteps (incident : Incident.t) : list RunbookBlock :=
  [
    numbered_step 1 ("**Check SIEM for correlated alerts.**" ++ nl ++ nl ++
         "Open your SIEM (Splunk / QRadar / Sentinel / Elastic SIEM) and run:" ++ nl ++
         "```" ++ nl ++
         "index=security host=" ++ incident.(Incident.affected_ci) ++ " earliest=-30m | stats count by source, severity" ++ nl ++
         "```" ++ nl ++ nl ++
         "Look for:" ++ nl ++
         "• Authentication failures spike" ++ nl ++
         "• Lateral movement indicators (unusual logins across multiple hosts)" ++ nl ++
         "• Data exfiltration indicators (large outbound transfers)" ++ nl ++
         "• Malware signatures or C2 beaconing" ++ nl ++ nl ++
         "✅ **Good**: No correlated security alerts" ++ nl ++
         "❌ **Bad**: Multiple security alerts firing simultaneously → this is likely a coordinated attack or breach")%string;
    numbered_step 2 ("**Check authentication logs for anomalies.**" ++ nl ++ nl ++
         "```" ++ nl ++
         "# Linux auth log:" ++ nl ++
         "grep -i " ++ dq ++ "failed\|invalid\|breach" ++ dq ++ " /var/log/auth.log | tail -100" ++ nl ++
         "grep -i " ++ dq ++ "accepted\|opened" ++ dq ++ " /var/log/auth.log | awk '{print $9}' | sort | uniq -c | sort -rn | head -20" ++ nl ++ nl ++
         "# Windows Event Log (Security):" ++ nl ++
         "Get-WinEvent -LogName Security -MaxEvents 100 | Where {$_.Id -in @(4625,4648,4672,4720)} | Format-List" ++ nl ++
         "```" ++ nl ++ nl ++
         "⚠️ **IMPORTANT**: If you suspect an active breach, do NOT power off affected systems — this destroys forensic evidence. Isolate from network instead.")%string;
    numbered_step 3 ("**Check DLP (Data Loss Prevention) alerts.**" ++ nl ++ nl ++
         "Verify if any sensitive data may have been exfiltrated:" ++ nl ++
         "• Check DLP console for alerts in last 24 hours" ++ nl ++
         "• Look for large transfers to external IPs" ++ nl ++
         "• Check firewall logs for unusual outbound connections" ++ nl ++ nl ++
         "```" ++ nl ++
         "netstat -an | grep ESTABLISHED | grep -v " ++ dq ++ "127.0.0.1\|10.\|192.168.\|172." ++ dq ++ " | head -20" ++ nl ++
         "```")%string;
    alert_box AlertCritical "SECURITY INCIDENT HANDLING: If you confirm a breach or data exfiltration — STOP. Escalate immediately to the CISO and Legal team BEFORE taking any containment action. Containment may need to be coordinated with law enforcement."
  ].

Definition getGenericDiagnosisSteps (incident : Incident.t) : list RunbookBlock :=
  [
    numbered_step 1 ("**Check primary health endpoint.**" ++ nl ++ nl ++
         "```" ++ nl ++
         "curl -v -m 10 https://" ++ incident.(Incident.affected_ci) ++ "/health" ++ nl ++
         "curl -v -m 10 https://" ++ incident.(Incident.affected_ci) ++ "/status" ++ nl ++
         "ping -c 5 " ++ incident.(Incident.affected_ci) ++ nl ++
         "```" ++ nl ++ nl ++
         "✅ **Good**: 200 OK response, ping responding" ++ nl ++
         "❌ **Bad**: Timeout, 5xx error, no route to host → proceed to Step 2")%string;
    numbered_step 2 ("**Check system logs for errors (last 30 minutes).**" ++ nl ++ nl ++
         "```" ++ nl ++
         "sudo journalctl -u " ++ incident.(Incident.affected_ci) ++ " --since " ++ dq ++ "30 minutes ago" ++ dq ++ " | grep -i " ++ dq ++ "error\|fatal\|critical" ++ dq ++ nl ++
         "tail -200 /var/log/syslog | grep -i " ++ dq ++ "error\|fail\|critical" ++ dq ++ nl ++
         "```" ++ nl ++ nl ++
         "✅ **Good**: No new error patterns" ++ nl ++
         "❌ **Bad**: New errors → document them verbatim; search for known fixes")%string;
    numbered_step 3 ("**Check system resources.**" ++ nl ++ nl ++
         "```" ++ nl ++
         "top -b -n 1 | head -20" ++ nl ++
         "df -h" ++ nl ++
         "free -h" ++ nl ++
         "netstat -s | grep -i " ++ dq ++ "failed\|retransmit\|error" ++ dq ++ nl ++
         "```" ++ nl ++ nl ++
         "✅ **Good**: CPU < 80%, Memory available, Disk < 85%" ++ nl ++
         "❌ **Bad**: Resource exhaustion → immediate escalation required")%string;
    numbered_step 4 ("**Check recent deployments and configuration changes.**" ++ nl ++ nl ++
         "Query your deployment tool and change management system for changes to '" ++ incident.(Incident.affected_ci) ++ "' in the last 4 hours." ++ nl ++ nl ++
         "⚡ **Decision**: If a change was made → rollback is the fastest path to service restoration")%string
  ].

Definition buildSection4 (incident : Incident.t) (ic techLead : option Stakeholder.t)
  (addAction : AddActionFn) : M RunbookSection.t :=
  let category := toLowerCase incident.(Incident.category) in
  addAction Diagnosis ("Run initial " ++ incident.(Incident.category) ++ " health check on " ++ incident.(Incident.affected_ci))%string
    (techLead ?. Stakeholder.name ?? "Technical Lead") (techLead ?. Stakeholder.team ?? "Engineering") P1 "T+10" ;;
  addAction Diagnosis "Collect logs from affected CI and downstream services"
    (techLead ?. Stakeholder.name ?? "Technical Lead") (techLead ?. Stakeholder.team ?? "Engineering") P1 "T+15" ;;
  addAction Diagnosis "Check recent change/deployment history (last 4 hours)"
    (techLead ?. Stakeholder.name ?? "Technical Lead") (techLead ?. Stakeholder.team ?? "Engineering") P1 "T+15" ;;
  addAction Diagnosis "Document working hypothesis in Slack channel"
    (ic ?. Stakeholder.name ?? "IC") (ic ?. Stakeholder.team ?? "Operations") P2 "T+20" ;;
  let blocks : list RunbookBlock := [
    paragraph ("**Owner**: " ++ (techLead ?. Stakeholder.name ?? "Technical Lead") ++ " (" ++ (techLead ?. Stakeholder.slack ?? "assign tech lead") ++ ")" ++ nl ++ nl ++
         "**Goal of this section**: Understand WHAT is broken and WHY, so you can take the right containment action. Work through steps in order. Document every finding in the Slack channel as you go.")%string;
    alert_box AlertInfo "For every check below: state what you expected vs. what you found. 'Good' means the result matches expected baseline. 'Bad' means it deviates and needs investigation."
  ] in
  let blocks :=
    (blocks ++
     if includes category "database" then getDatabaseDiagnosisSteps incident
     else if includes category "network" then getNetworkDiagnosisSteps incident
     else if includes category "application" then getApplicationDiagnosisSteps incident
     else if includes category "cloud" || includes category "infra" then getCloudInfraDiagnosisSteps incident
     else if includes category "security" then getSecurityDiagnosisSteps incident
     else getGenericDiagnosisSteps incident)%list in
  let blocks := (blocks ++ [
    heading 2 "Root Cause Hypothesis Log";
    paragraph "Before moving to containment, post your working hypothesis in the Slack channel:";
    command ("We believe the root cause is: [YOUR HYPOTHESIS]" ++ nl ++
         "Evidence supporting this: [LIST EVIDENCE]" ++ nl ++
         "Evidence against this: [CONTRADICTORY FINDINGS]" ++ nl ++
         "Confidence level: High / Medium / Low" ++ nl ++
         "Recommended next action: [SPECIFIC ACTION]")%string
  ])%list in
  ret {| RunbookSection.sectionNumber := 4;
         RunbookSection.title := "Diagnosis & Investigation Steps";
         RunbookSection.blocks := blocks |}.

(* ================================================================== *)
(** * Section 5: Containment & Mitigation *)
(* ================================================================== *)

Definition getDatabaseContainmentSteps (incident : Incident.t) : list RunbookBlock :=
  [
    numbered_step 1 ("**Option A: Failover to standby/replica (FASTEST — preferred first action).**" ++ nl ++ nl ++
         "⚠️ CAB required if this is a planned-change environment." ++ nl ++ nl ++
         "```" ++ nl ++
         "# Oracle Data Guard failover:" ++ nl ++
         "dgmgrl sys/[PASSWORD]@" ++ incident.(Incident.affected_ci) ++ nl ++
         "FAILOVER TO [STANDBY_DB_NAME];" ++ nl ++ nl ++
         "# MySQL MHA failover:" ++ nl ++
         "masterha_master_switch --conf=/etc/mha/app.conf --master_state=dead --orig_master_is_new_slave" ++ nl ++ nl ++
         "# AWS RDS Failover:" ++ nl ++
         "aws rds failover-db-cluster --db-cluster-identifier [CLUSTER_ID]" ++ nl ++
         "```" ++ nl ++ nl ++
         "**Rollback**: If standby is worse, re-failover back: `SWITCHOVER TO [PRIMARY_DB];`" ++ nl ++ nl ++
         "Monitor: Check application error rates within 5 minutes of failover.")%string;
    numbered_step 2 ("**Option B: Restart connection pool (if pool exhaustion is the cause).**" ++ nl ++ nl ++
         "```" ++ nl ++
         "# Restart application connection pool (varies by tech stack):" ++ nl ++
         "# Spring Boot:" ++ nl ++
         "curl -X POST https://[APP_HOST]/actuator/loggers/com.zaxxer.hikari -d '{" ++ dq ++ "configuredLevel" ++ dq ++ ":" ++ dq ++ "DEBUG" ++ dq ++ "}'" ++ nl ++
         "# Direct kill: kill application processes and let them restart" ++ nl ++
         "systemctl restart " ++ incident.(Incident.affected_ci) ++ "-app" ++ nl ++ nl ++
         "# AWS RDS Proxy (if used):" ++ nl ++
         "aws rds failover-db-cluster --db-cluster-identifier [CLUSTER]" ++ nl ++
         "```" ++ nl ++ nl ++
         "**Monitor**: After restart, watch connection count in DB metrics dashboard.")%string;
    numbered_step 3 ("**Option C: Kill blocking sessions.**" ++ nl ++ nl ++
         "```" ++ nl ++
         "-- Oracle: Find and kill blocking sessions:" ++ nl ++
         "SELECT 'ALTER SYSTEM KILL SESSION ''' || sid || ',' || serial# || ''' IMMEDIATE;'" ++ nl ++
         "FROM v$session" ++ nl ++
         "WHERE blocking_session IS NOT NULL;" ++ nl ++
         "-- Execute the generated statements above after reviewing them" ++ nl ++ nl ++
         "-- MySQL: Kill blocking connections" ++ nl ++
         "SELECT CONCAT('KILL ', id, ';') FROM information_schema.processlist" ++ nl ++
         "WHERE time > 300 AND command != 'Sleep'" ++ nl ++
         "ORDER BY time DESC LIMIT 10;" ++ nl ++
         "```" ++ nl ++ nl ++
         "⚠️ **Review each session before killing** — some long-running transactions may be legitimate batch jobs.")%string;
    numbered_step 4 ("**Option D: Rollback a recent deployment (if deployment is suspected).**" ++ nl ++ nl ++
         "Get the last known-good deployment tag from your pipeline:" ++ nl ++
         "```" ++ nl ++
         "# Kubernetes:" ++ nl ++
         "kubectl rollout undo deployment/" ++ incident.(Incident.affected_ci) ++ " -n production" ++ nl ++
         "kubectl rollout status deployment/" ++ incident.(Incident.affected_ci) ++ " -n production" ++ nl ++ nl ++
         "# AWS CodeDeploy:" ++ nl ++
         "aws deploy create-deployment \" ++ nl ++
         "  --application-name [APP_NAME] \" ++ nl ++
         "  --deployment-group-name [GROUP] \" ++ nl ++
         "  --deployment-config-name CodeDeployDefault.AllAtOnce \" ++ nl ++
         "  --revision revisionType=GitHub,gitHubLocation={repository=[REPO],commitId=[LAST_GOOD_COMMIT]}" ++ nl ++
         "```")%string
  ].

Definition getApplicationContainmentSteps (incident : Incident.t) : list RunbookBlock :=
  [
    numbered_step 1 ("**Rollback deployment to last known-good version.**" ++ nl ++ nl ++
         "⚠️ CAB required in production." ++ nl ++ nl ++
         "```" ++ nl ++
         "# Kubernetes:" ++ nl ++
         "kubectl rollout undo deployment/" ++ incident.(Incident.affected_ci) ++ " -n production" ++ nl ++
         "kubectl rollout status deployment/" ++ incident.(Incident.affected_ci) ++ " -n production --timeout=5m" ++ nl ++ nl ++
         "# Docker Swarm:" ++ nl ++
         "docker service update --rollback " ++ incident.(Incident.affected_ci) ++ nl ++ nl ++
         "# Traditional (restart with previous version):" ++ nl ++
         "sudo systemctl stop " ++ incident.(Incident.affected_ci) ++ nl ++
         "# Replace binary/artifact with previous version" ++ nl ++
         "sudo systemctl start " ++ incident.(Incident.affected_ci) ++ nl ++
         "```" ++ nl ++ nl ++
         "**Validate**: Check error rate in APM dashboard within 2 minutes of rollback.")%string;
    numbered_step 2 ("**Disable problematic feature flag.**" ++ nl ++ nl ++
         "If a feature flag was recently enabled, turn it OFF:" ++ nl ++
         "```" ++ nl ++
         "# LaunchDarkly CLI:" ++ nl ++
         "launchdarkly flags update [FLAG_KEY] --off --environment production" ++ nl ++ nl ++
         "# Or via API:" ++ nl ++
         "curl -X PATCH https://app.launchdarkly.com/api/v2/flags/default/[FLAG_KEY] \" ++ nl ++
         "  -H " ++ dq ++ "Authorization: [API_KEY]" ++ dq ++ " \" ++ nl ++
         "  -d '[{" ++ dq ++ "op" ++ dq ++ ":" ++ dq ++ "replace" ++ dq ++ "," ++ dq ++ "path" ++ dq ++ ":" ++ dq ++ "/environments/production/on" ++ dq ++ "," ++ dq ++ "value" ++ dq ++ ":false}]'" ++ nl ++
         "```" ++ nl ++ nl ++
         "**Validate**: Error rate should drop within 1-2 minutes.")%string;
    numbered_step 3 ("**Restart affected services (last resort — short-term fix only).**" ++ nl ++ nl ++
         "```" ++ nl ++
         "# Kubernetes — rolling restart:" ++ nl ++
         "kubectl rollout restart deployment/" ++ incident.(Incident.affected_ci) ++ " -n production" ++ nl ++ nl ++
         "# Systemd:" ++ nl ++
         "sudo systemctl restart " ++ incident.(Incident.affected_ci) ++ nl ++ nl ++
         "# ECS:" ++ nl ++
         "aws ecs update-service --cluster production --service " ++ incident.(Incident.affected_ci) ++ " --force-new-deployment" ++ nl ++
         "```" ++ nl ++ nl ++
         "⚠️ **Note**: A restart may mask the root cause. Capture heap dumps and thread dumps BEFORE restarting if OOM or deadlock is suspected:" ++ nl ++
         "`jmap -dump:format=b,file=/tmp/heapdump.hprof [PID]`")%string
  ].

Definition getNetworkContainmentSteps (incident : Incident.t) : list RunbookBlock :=
  [
    numbered_step 1 ("**Revert the routing change / re-advertise the route.**" ++ nl ++ nl ++
         "⚠️ CAB required." ++ nl ++ nl ++
         "```" ++ nl ++
         "# Rollback network change via your network management tool" ++ nl ++
         "# Or re-advertise the withdrawn BGP route" ++ nl ++
         "# Specific commands depend on your network vendor — contact your network team" ++ nl ++
         "```" ++ nl ++ nl ++
         "**Validate**: Run `traceroute " ++ incident.(Incident.affected_ci) ++ "` from multiple vantage points.")%string;
    numbered_step 2 ("**Revert firewall rule change.**" ++ nl ++ nl ++
         "```" ++ nl ++
         "# Linux iptables — remove the blocking rule:" ++ nl ++
         "sudo iptables -D INPUT -s [BLOCKED_IP] -j DROP" ++ nl ++ nl ++
         "# AWS Security Group — restore the inbound rule:" ++ nl ++
         "aws ec2 authorize-security-group-ingress \" ++ nl ++
         "  --group-id [SG_ID] \" ++ nl ++
         "  --protocol tcp --port [PORT] --cidr [CIDR]" ++ nl ++
         "```")%string;
    numbered_step 3 ("**Bypass CDN and route traffic directly to origin.**" ++ nl ++ nl ++
         "Update DNS to point directly to origin load balancer (bypasses CDN caching and edge issues):" ++ nl ++
         "```" ++ nl ++
         "# AWS Route 53 — update record to point to ALB:" ++ nl ++
         "aws route53 change-resource-record-sets --hosted-zone-id [ZONE_ID] \" ++ nl ++
         "  --change-batch file://failover-dns.json" ++ nl ++
         "```" ++ nl ++ nl ++
         "**Monitor**: DNS propagation takes 1-5 minutes. Monitor via: `watch -n 10 " ++ dq ++ "dig " ++ incident.(Incident.affected_ci) ++ " @8.8.8.8" ++ dq ++ "`" ++ nl ++ nl ++
         "**Rollback**: Revert DNS record back to CDN CNAME once CDN issue is resolved.")%string
  ].

Definition getCloudInfraContainmentSteps (incident : Incident.t) : list RunbookBlock :=
  [
    numbered_step 1 ("**Replace impaired instances / restart pods.**" ++ nl ++ nl ++
         "```" ++ nl ++
         "# AWS EC2 — terminate impaired instance (ASG will replace):" ++ nl ++
         "aws ec2 terminate-instances --instance-ids [IMPAIRED_INSTANCE_ID]" ++ nl ++ nl ++
         "# Kubernetes — delete and reschedule pod:" ++ nl ++
         "kubectl delete pod [POD_NAME] -n production" ++ nl ++
         "# If node is impaired, cordon it:" ++ nl ++
         "kubectl cordon [NODE_NAME]" ++ nl ++
         "kubectl drain [NODE_NAME] --ignore-daemonsets --delete-emptydir-data" ++ nl ++
         "```")%string;
    numbered_step 2 ("**Failover to backup region / AZ.**" ++ nl ++ nl ++
         "⚠️ CAB required — high blast radius action." ++ nl ++ nl ++
         "```" ++ nl ++
         "# AWS Route 53 health-check based failover:" ++ nl ++
         "aws route53 change-resource-record-sets --hosted-zone-id [ZONE_ID] \" ++ nl ++
         "  --change-batch '{" ++ dq ++ "Changes" ++ dq ++ ":[{" ++ dq ++ "Action" ++ dq ++ ":" ++ dq ++ "UPSERT" ++ dq ++ "," ++ dq ++ "ResourceRecordSet" ++ dq ++ ":{" ++ dq ++ "Name" ++ dq ++ ":" ++ dq ++ "[DOMAIN]" ++ dq ++ "," ++ dq ++ "Type" ++ dq ++ ":" ++ dq ++ "A" ++ dq ++ "," ++ dq ++ "Failover" ++ dq ++ ":" ++ dq ++ "SECONDARY" ++ dq ++ "," ++ dq ++ "HealthCheckId" ++ dq ++ ":" ++ dq ++ "[HC_ID]" ++ dq ++ "," ++ dq ++ "TTL" ++ dq ++ ":60," ++ dq ++ "ResourceRecords" ++ dq ++ ":[{" ++ dq ++ "Value" ++ dq ++ ":" ++ dq ++ "[BACKUP_IP]" ++ dq ++ "}]}}]}'" ++ nl ++
         "```" ++ nl ++ nl ++
         "**Validate**: Test from external after 60 seconds (TTL).")%string
  ].

Definition getGenericContainmentSteps (incident : Incident.t) : list RunbookBlock :=
  [
    numbered_step 1 ("**Restart the affected service (first, safest option).**" ++ nl ++ nl ++
         "```" ++ nl ++
         "sudo systemctl restart " ++ incident.(Incident.affected_ci) ++ nl ++
         "sudo systemctl status " ++ incident.(Incident.affected_ci) ++ nl ++
         "```" ++ nl ++ nl ++
         "**Validate**: Check health endpoint within 2 minutes. If no improvement → go to Step 2.")%string;
    numbered_step 2 ("**Rollback most recent change.**" ++ nl ++ nl ++
         "Identify the most recent change to " ++ incident.(Incident.affected_ci) ++ " and revert it. Contact the change owner and ask them to revert via normal rollback procedure." ++ nl ++ nl ++
         "⚠️ CAB required for all production rollbacks.")%string;
    numbered_step 3 ("**Failover to backup/standby (if available).**" ++ nl ++ nl ++
         "If a backup system or standby environment exists for '" ++ incident.(Incident.affected_service) ++ "', activate it now. Update DNS/load balancer to route traffic to the backup." ++ nl ++ nl ++
         "Get specific failover procedure from: [LINK TO DR PROCEDURE]")%string
  ].

Definition buildSection5 (incident : Incident.t) (techLead : option Stakeholder.t)
  (addAction : AddActionFn) : M RunbookSection.t :=
  let category := toLowerCase incident.(Incident.category) in
  addAction Containment "Execute primary containment action (per diagnosis findings)"
    (techLead ?. Stakeholder.name ?? "Technical Lead") (techLead ?. Stakeholder.team ?? "Engineering") P1 "T+20" ;;
  addAction Containment "Validate containment effectiveness — monitor error rates"
    (techLead ?. Stakeholder.name ?? "Technical Lead") (techLead ?. Stakeholder.team ?? "Engineering") P1 "T+30" ;;
  addAction Containment "Document all actions taken with exact timestamps in Slack"
    (techLead ?. Stakeholder.name ?? "Technical Lead") (techLead ?. Stakeholder.team ?? "Engineering") P2 "T+35" ;;
  let blocks : list RunbookBlock := [
    paragraph ("**Owner**: " ++ (techLead ?. Stakeholder.name ?? "Technical Lead") ++ nl ++ nl ++
         "**Rule**: Before executing any containment action, announce it in " ++ toLowerCase incident.(Incident.number) ++ " Slack channel:" ++ nl ++
         "> " ++ dq ++ "About to execute: [ACTION]. Expected impact: [IMPACT]. Rollback plan: [ROLLBACK]. Approvals: [NAMES]" ++ dq ++ nl ++ nl ++
         "For **irreversible or high-risk actions**, obtain verbal approval from the Incident Commander and document it in the Slack channel.")%string;
    alert_box AlertWarning "CAB Emergency Approval: Some actions below (marked ⚠️ CAB) require Change Advisory Board emergency approval. To get fast approval: (1) Call the CAB emergency line at [CAB_PHONE], (2) State incident number and requested change, (3) Get verbal approval from the CAB chair, (4) Log the change in your ITSM tool immediately after."
  ] in
  let blocks :=
    (blocks ++
     if includes category "database" then getDatabaseContainmentSteps incident
     else if includes category "network" then getNetworkContainmentSteps incident
     else if includes category "application" then getApplicationContainmentSteps incident
     else if includes category "cloud" || includes category "infra" then getCloudInfraContainmentSteps incident
     else getGenericContainmentSteps incident)%list in
  ret {| RunbookSection.sectionNumber := 5;
         RunbookSection.title := "Containment & Mitigation Actions";
         RunbookSection.blocks := blocks |}.

(* ================================================================== *)
(** * Section 6: Escalation Matrix *)
(* ================================================================== *)

Definition buildSection6 (stakeholders : list Stakeholder.t)
  (vendors : list VendorEscalation.t) : RunbookSection.t :=
  let blocks : list RunbookBlock := [
    paragraph "Use this matrix to escalate if the incident is not resolved within the stated time window. **Do not wait until the time is up** — if you are not making progress, escalate sooner.";
    table [
      ["Time Elapsed"; "Action";
       "Escalate To";
       "Contact Method"];
      ["T+15 (not contained)"; "Escalate to Technical Lead + IC if not already engaged";
       join ", " (map Stakeholder.name (filter (fun s => (s.(Stakeholder.escalation_level) =? 1)%nat) stakeholders));
       "Phone + Slack"];
      ["T+30 (not contained)"; "Escalate to VP/Senior Management; consider vendor support";
       orElse (join ", " (map Stakeholder.name (filter (fun s => (s.(Stakeholder.escalation_level) =? 2)%nat) stakeholders))) "Level 2 contacts";
       "Phone + Email"];
      ["T+60 (not contained)"; "Escalate to C-Suite; open P1 case with relevant vendor";
       orElse (join ", " (map Stakeholder.name (filter (fun s => (s.(Stakeholder.escalation_level) =? 3)%nat) stakeholders))) "Executive team";
       "Phone"];
      ["T+120 (still unresolved)"; "Consider declaring Major Incident; invoke DR plan; all hands";
       "All stakeholders + DRI team";
       "Emergency all-hands bridge"]
    ];
    heading 2 "Individual Escalation Contacts";
    table (
      ["Name"; "Role"; "Escalation Level"; "Phone"; "Email"; "Slack"] ::
      map (fun s => [
          s.(Stakeholder.name);
          s.(Stakeholder.role);
          if (s.(Stakeholder.escalation_level) =? 1)%nat then "Level 1 — Immediate" else
            if (s.(Stakeholder.escalation_level) =? 2)%nat then "Level 2 — T+30" else "Level 3 — T+60+";
          s.(Stakeholder.phone);
          s.(Stakeholder.email);
          s.(Stakeholder.slack)
        ]) stakeholders)
  ] in
  let blocks :=
    match vendors with
    | [] => blocks
    | _ :: _ =>
      (blocks ++ [
        heading 2 "Vendor / Third-Party Escalation";
        table (
          ["Vendor"; "Account Number"; "Support URL"; "Phone"; "Severity to Declare"] ::
          map (fun v => [v.(VendorEscalation.vendor); v.(VendorEscalation.account_number);
                         v.(VendorEscalation.support_url); v.(VendorEscalation.phone);
                         v.(VendorEscalation.severity_mapping)]) vendors)
      ])%list
    end in
  {| RunbookSection.sectionNumber := 6;
     RunbookSection.title := "Escalation Matrix";
     RunbookSection.blocks := blocks |}.


(* ================================================================== *)
(** * Section 7: Resolution & Validation *)
(* ================================================================== *)

Definition buildSection7 (incident : Incident.t) (ic : option Stakeholder.t)
  (addAction : AddActionFn) : M RunbookSection.t :=
  addAction Resolution ("Validate " ++ incident.(Incident.affected_service) ++ " end-to-end health checks pass")%string
    (ic ?. Stakeholder.name ?? "IC") (ic ?. Stakeholder.team ?? "Operations") P1 "T+0 post-fix" ;;
  addAction Resolution "Confirm error rate and latency return to baseline"
    (ic ?. Stakeholder.name ?? "IC") (ic ?. Stakeholder.team ?? "Operations") P1 "T+5 post-fix" ;;
  addAction Resolution "Run synthetic monitor / smoke test"
    (ic ?. Stakeholder.name ?? "IC") (ic ?. Stakeholder.team ?? "Operations") P1 "T+5 post-fix" ;;
  addAction Resolution "Formally downgrade to Sev2 / close bridge once all checks pass"
    (ic ?. Stakeholder.name ?? "IC") (ic ?. Stakeholder.team ?? "Operations") P2 "T+10 post-fix" ;;
  addAction Resolution "Send Service Restored notification (Email Template 5)"
    (ic ?. Stakeholder.name ?? "IC") (ic ?. Stakeholder.team ?? "Operations") P1 "T+5 post-fix" ;;
  let blocks : list RunbookBlock := [
    paragraph ("**Owner**: " ++ (ic ?. Stakeholder.name ?? "Incident Commander") ++ nl ++ nl ++
         "Before declaring the incident resolved, ALL of the following criteria must be met. Do not close the incident if any item is failing or unclear.")%string;
    heading 2 "Resolution Criteria Checklist";
    checklist_item ("Health endpoint returns 200 OK: `curl -I https://" ++ incident.(Incident.affected_ci) ++ "/health`")%string;
    checklist_item ("Synthetic monitor for '" ++ incident.(Incident.affected_service) ++ "' is GREEN (check your monitoring tool)")%string;
    checklist_item "Error rate has returned to pre-incident baseline (check APM dashboard)";
    checklist_item "P99 latency has returned to normal range";
    checklist_item "Customer-facing checkout / primary user flow is functioning end-to-end";
    checklist_item "Alerting rules are no longer firing";
    checklist_item "On-call engineer has monitored for 10 minutes with no re-trigger";
    checklist_item "Business stakeholder (Customer Impact Lead) has confirmed no open customer complaints";
    heading 2 "Severity Downgrade Criteria";
    table [
      ["Condition"; "Action"];
      ["All health checks pass, no customer impact, stable for 10 min"; "Downgrade to Sev2 and continue monitoring"];
      ["Partial restoration (some customers still affected)"; "Downgrade to Sev2, keep bridge open, continue investigation"];
      ["Workaround in place (not fully resolved)"; "Downgrade to Sev2, open follow-up task for permanent fix"]
    ];
    heading 2 "Closing the Bridge";
    numbered_step 1 ("Announce in the Zoom bridge: " ++ dq ++ "Service is restored. All health checks passing. We are closing the bridge. Thank you everyone." ++ dq)%string;
    numbered_step 2 ("Post in Slack channel " ++ replaceFirst "inc" "#inc" (toLowerCase incident.(Incident.number)) ++ ":" ++ nl ++ nl ++
         "```" ++ nl ++
         "✅ INCIDENT RESOLVED: " ++ incident.(Incident.number) ++ nl ++
         "Service: " ++ incident.(Incident.affected_service) ++ nl ++
         "Resolved At: [TIMESTAMP UTC]" ++ nl ++
         "Duration: [X hours Y minutes]" ++ nl ++
         "Root Cause (preliminary): [ROOT_CAUSE_HYPOTHESIS]" ++ nl ++
         "Action Taken: [SUMMARY_OF_FIX]" ++ nl ++
         "Next Steps: PIR to be scheduled within 5 business days" ++ nl ++
         "```")%string;
    numbered_step 3 "Send the Service Restored email (Template 5 in Section 3).";
    numbered_step 4 "Stand down all escalated stakeholders — send personal message or call to confirm they know the incident is over."
  ] in
  ret {| RunbookSection.sectionNumber := 7;
         RunbookSection.title := "Resolution & Validation";
         RunbookSection.blocks := blocks |}.

(* ================================================================== *)
(** * Section 8: Post-Incident Handoff *)
(* ================================================================== *)

Definition buildSection8 (incident : Incident.t) (ic commsLead : option Stakeholder.t)
  (addAction : AddActionFn) : M RunbookSection.t :=
  addAction Resolution "Update ServiceNow incident ticket with timeline and resolution"
    (ic ?. Stakeholder.name ?? "IC") (ic ?. Stakeholder.team ?? "Operations") P2 "T+30 post-fix" ;;
  addAction Resolution "Create PIR ticket and schedule PIR meeting"
    (ic ?. Stakeholder.name ?? "IC") (ic ?. Stakeholder.team ?? "Operations") P2 "T+2 days" ;;
  addAction Resolution "Send PIR invitation email (Template 6)"
    (commsLead ?. Stakeholder.name ?? "Comms Lead") (commsLead ?. Stakeholder.team ?? "Communications") P2 "T+1 day" ;;
  let blocks : list RunbookBlock := [
    paragraph ("**Owner**: " ++ (ic ?. Stakeholder.name ?? "Incident Commander") ++ nl ++ nl ++
         "Complete this section before closing " ++ incident.(Incident.number) ++ " in ServiceNow. A well-documented post-incident record prevents the same incident from happening again.")%string;
    heading 2 "Documentation Before Closing";
    checklist_item "Complete timeline of events documented (use Slack channel history + Excel Timeline sheet)";
    checklist_item "All containment actions documented with exact timestamps and who performed them";
    checklist_item "Root cause hypothesis documented (even if unconfirmed — note confidence level)";
    checklist_item "Customer impact quantified (number of users, duration, business cost)";
    checklist_item "Any temporary workarounds noted with follow-up tasks created";
    checklist_item "All follow-up Jira/ticket items created and assigned with due dates";
    heading 2 "ServiceNow Resolution Update";
    paragraph ("Update ticket **" ++ incident.(Incident.number) ++ "** in ServiceNow with the following information:" ++ nl ++ nl ++
         "**Resolution Notes Template**:")%string;
    command ("RESOLUTION NOTES — " ++ incident.(Incident.number) ++ nl ++ nl ++
         "Incident opened: [OPENED_TIMESTAMP]" ++ nl ++
         "Service restored: [RESOLVED_TIMESTAMP]" ++ nl ++
         "Total duration: [X hours Y minutes]" ++ nl ++ nl ++
         "Root Cause (Preliminary):" ++ nl ++
         "[DESCRIBE THE ROOT CAUSE - be specific, not generic. E.g., " ++ dq ++ "Oracle RAC node prod-oracle-01 crashed due to ORA-04031 (shared pool memory exhaustion) triggered by an unoptimized query deployed in release v2.4.1 at 13:45 UTC" ++ dq ++ "]" ++ nl ++ nl ++
         "Containment Actions Taken:" ++ nl ++
         "1. [TIMESTAMP] [ACTION] — performed by [NAME]" ++ nl ++
         "2. [TIMESTAMP] [ACTION] — performed by [NAME]" ++ nl ++ nl ++
         "Customer Impact:" ++ nl ++
         "- Duration of impact: [X hours Y minutes]" ++ nl ++
         "- Services affected: [LIST]" ++ nl ++
         "- Estimated users impacted: [NUMBER]" ++ nl ++ nl ++
         "Follow-up Actions (link to tickets):" ++ nl ++
         "- [JIRA-XXX]: Root cause investigation" ++ nl ++
         "- [JIRA-XXX]: Monitoring/alerting improvements" ++ nl ++
         "- [JIRA-XXX]: Process improvements" ++ nl ++ nl ++
         "PIR scheduled: [DATE] [TIME] with [ATTENDEES]")%string;
    heading 2 "Post-Incident Review (PIR) Ticket";
    paragraph "Raise a PIR ticket (Problem record in ServiceNow) within 24 hours of resolution. Use the template below:";
    command ("PIR TICKET — " ++ incident.(Incident.number) ++ nl ++ nl ++
         "Title: PIR: " ++ incident.(Incident.title) ++ nl ++
         "Category: Problem Management" ++ nl ++
         "Priority: 2 - High" ++ nl ++
         "Assigned To: " ++ (ic ?. Stakeholder.name ?? "[INCIDENT COMMANDER]") ++ nl ++ nl ++
         "Description:" ++ nl ++
         "Post-Incident Review for " ++ incident.(Incident.number) ++ " — " ++ incident.(Incident.title) ++ nl ++ nl ++
         "Incident Summary:" ++ nl ++
         "- Severity: " ++ incident.(Incident.severity) ++ nl ++
         "- Affected Service: " ++ incident.(Incident.affected_service) ++ nl ++
         "- Detected: [TIMESTAMP]" ++ nl ++
         "- Resolved: [TIMESTAMP]" ++ nl ++
         "- Duration: [X hours Y minutes]" ++ nl ++
         "- Impact: " ++ incident.(Incident.business_impact) ++ nl ++ nl ++
         "Review Meeting:" ++ nl ++
         "- Date: [PIR_DATE] (within 5 business days)" ++ nl ++
         "- Duration: 60 minutes" ++ nl ++
         "- Attendees: " ++ (ic ?. Stakeholder.name ?? "[IC]") ++ ", [TECH_LEAD], [COMMS_LEAD], [AFFECTED_TEAM_LEADS]" ++ nl ++ nl ++
         "Agenda:" ++ nl ++
         "1. Timeline walkthrough (15 min)" ++ nl ++
         "2. Root cause analysis (20 min)" ++ nl ++
         "3. What went well (10 min)" ++ nl ++
         "4. What to improve (10 min)" ++ nl ++
         "5. Action items (5 min)" ++ nl ++ nl ++
         "Pre-reads:" ++ nl ++
         "- This runbook: [LINK]" ++ nl ++
         "- Incident timeline (Excel Sheet 3): [LINK]" ++ nl ++
         "- Monitoring dashboard screenshots: [LINK]")%string;
    heading 2 "ServiceNow Ticket Closure Checklist";
    checklist_item ("Set State to " ++ dq ++ "Resolved" ++ dq)%string;
    checklist_item "Set Close Code to appropriate category (e.g., 'Software', 'Infrastructure', 'User Error')";
    checklist_item "Fill in Resolution Notes (use template above)";
    checklist_item "Link PIR Problem ticket in the Related Problems field";
    checklist_item "Attach this runbook (.docx) and the action tracker (.xlsx) to the ticket";
    checklist_item "Send Template 6 (PIR Invitation email) to all stakeholders";
    checklist_item "Archive the Slack incident channel (do NOT delete — retain for audit)"
  ] in
  ret {| RunbookSection.sectionNumber := 8;
         RunbookSection.title := "Post-Incident Handoff";
         RunbookSection.blocks := blocks |}.

(* ================================================================== *)
(** * Email Templates *)
(* ================================================================== *)

Definition buildEmailTemplates (incident : Incident.t) (stakeholders : list Stakeholder.t)
  (ic commsLead : option Stakeholder.t) (zoomUrl slackChannel : string)
  : list EmailTemplate.t :=
  let immediate :=
    filter (fun s => s.(Stakeholder.notify_immediately) ||
                     (s.(Stakeholder.escalation_level) =? 1)%nat) stakeholders in
  let level2 := filter (fun s => (s.(Stakeholder.escalation_level) =? 2)%nat) stakeholders in
  let level3 := filter (fun s => (s.(Stakeholder.escalation_level) =? 3)%nat) stakeholders in
  let allStakeholders := stakeholders in

  let toImmediate := map (fun s => s.(Stakeholder.email)) immediate in
  let ccLevel2 := map (fun s => s.(Stakeholder.email)) level2 in
  let toLevel2 := map (fun s => s.(Stakeholder.email)) level2 in
  let ccLevel3 := map (fun s => s.(Stakeholder.email)) level3 in
  let toAll := map (fun s => s.(Stakeholder.email)) allStakeholders in

  let detectedAt := incident.(Incident.detected_at) ?? incident.(Incident.opened_at) in

  [
    {|
      EmailTemplate.phase := "Initial Incident Notification";
      EmailTemplate.timing := "T+0 (send immediately upon declaring Sev1)";
      EmailTemplate.to := toImmediate;
      EmailTemplate.cc := ccLevel2;
      EmailTemplate.subject := ("[SEV1 — ACTIVE] " ++ incident.(Incident.number) ++ ": " ++ incident.(Incident.affected_service) ++ " — " ++ incident.(Incident.title))%string;
      EmailTemplate.colorBand := Red;
      EmailTemplate.body := ("Team," ++ nl ++ nl ++
           "We are declaring a Severity 1 incident affecting " ++ incident.(Incident.affected_service) ++ "." ++ nl ++ nl ++
           "INCIDENT DETAILS" ++ nl ++
           "================" ++ nl ++
           "Incident Number : " ++ incident.(Incident.number) ++ nl ++
           "Severity        : " ++ incident.(Incident.severity) ++ nl ++
           "Priority        : " ++ incident.(Incident.priority) ++ nl ++
           "Affected Service: " ++ incident.(Incident.affected_service) ++ nl ++
           "Affected CI     : " ++ incident.(Incident.affected_ci) ++ nl ++
           "Environment     : " ++ incident.(Incident.environment) ++ (match incident.(Incident.region) with Some (String c r) => " (" ++ String c r ++ ")" | _ => "" end) ++ nl ++
           "Detected At     : " ++ formatTimestamp detectedAt ++ " UTC" ++ nl ++
           "Incident Commander: " ++ (ic ?. Stakeholder.name ?? "[INCIDENT COMMANDER]") ++ " — " ++ (ic ?. Stakeholder.phone ?? "[PHONE]") ++ nl ++ nl ++
           "BUSINESS IMPACT" ++ nl ++
           "===============" ++ nl ++
           incident.(Incident.business_impact) ++ nl ++ nl ++
           "CURRENT STATUS" ++ nl ++
           "==============" ++ nl ++
           "We have declared a Sev1 and are mobilising the response team. Investigation is starting now." ++ nl ++ nl ++
           "WAR ROOM" ++ nl ++
           "========" ++ nl ++
           "Zoom Bridge : " ++ zoomUrl ++ nl ++
           "Slack Channel: " ++ slackChannel ++ nl ++ nl ++
           "All Level 1 stakeholders, please join the bridge immediately." ++ nl ++ nl ++
           "Next update: T+30 minutes or sooner if there is a significant development." ++ nl ++ nl ++
           "-- " ++ (commsLead ?. Stakeholder.name ?? "Incident Response Team"))%string
    |};
    {|
      EmailTemplate.phase := "War Room / Bridge Established";
      EmailTemplate.timing := "T+5 (once bridge call is open and team is assembling)";
      EmailTemplate.to := toImmediate;
      EmailTemplate.cc := ccLevel2;
      EmailTemplate.subject := ("[SEV1 — WAR ROOM OPEN] " ++ incident.(Incident.number) ++ ": Bridge call is live — join now")%string;
      EmailTemplate.colorBand := Red;
      EmailTemplate.body := ("Team," ++ nl ++ nl ++
           "The incident bridge for " ++ incident.(Incident.number) ++ " is now active." ++ nl ++ nl ++
           "BRIDGE DETAILS" ++ nl ++
           "==============" ++ nl ++
           "Zoom URL  : " ++ zoomUrl ++ nl ++
           "Dial-In   : " ++ (ic ?.? Stakeholder.bridge_phone ?? "[DIAL-IN NUMBER + PIN]") ++ nl ++
           "Slack     : " ++ slackChannel ++ nl ++ nl ++
           "ON THE CALL NOW" ++ nl ++
           "===============" ++ nl ++
           (ic ?. Stakeholder.name ?? "[INCIDENT COMMANDER]") ++ " — Incident Commander" ++ nl ++
           "[NAMES OF ENGINEERS ON CALL — update as people join]" ++ nl ++ nl ++
           "CURRENT WORKING HYPOTHESIS" ++ nl ++
           "===========================" ++ nl ++
           "[UPDATE THIS — e.g., " ++ dq ++ "We believe the Oracle cluster primary node has crashed. Investigating logs now." ++ dq ++ "]" ++ nl ++ nl ++
           "WHO WE NEED" ++ nl ++
           "===========" ++ nl ++
           "If you are a " ++ incident.(Incident.assignment_group) ++ " engineer and are NOT on the call, please join immediately." ++ nl ++ nl ++
           "Next update: T+30 minutes." ++ nl ++ nl ++
           "-- " ++ (commsLead ?. Stakeholder.name ?? ic ?. Stakeholder.name ?? "Incident Response Team"))%string
    |};
    {|
      EmailTemplate.phase := "30-Minute Status Update";
      EmailTemplate.timing := "T+30 (and every 30 minutes thereafter until resolved)";
      EmailTemplate.to := (toImmediate ++ toLevel2)%list;
      EmailTemplate.cc := ccLevel3;
      EmailTemplate.subject := ("[SEV1 — T+[ELAPSED]MIN UPDATE] " ++ incident.(Incident.number) ++ ": Status Update — [CURRENT_STATUS_HEADLINE]")%string;
      EmailTemplate.colorBand := Amber;
      EmailTemplate.body := ("Team," ++ nl ++ nl ++
           "Status update for " ++ incident.(Incident.number) ++ " as of [CURRENT_TIME] UTC (T+[ELAPSED] minutes)." ++ nl ++ nl ++
           "CURRENT STATUS" ++ nl ++
           "==============" ++ nl ++
           "[REPLACE WITH: " ++ dq ++ "Investigating" ++ dq ++ " / " ++ dq ++ "Root cause identified" ++ dq ++ " / " ++ dq ++ "Mitigation in progress" ++ dq ++ " / " ++ dq ++ "Monitoring after fix" ++ dq ++ "]" ++ nl ++ nl ++
           "ACTIONS TAKEN SO FAR" ++ nl ++
           "====================" ++ nl ++
           "[TIMESTAMP] [ACTION TAKEN] — [NAME]" ++ nl ++
           "[TIMESTAMP] [ACTION TAKEN] — [NAME]" ++ nl ++
           "[ADD MORE ROWS AS NEEDED]" ++ nl ++ nl ++
           "CURRENT WORKING HYPOTHESIS" ++ nl ++
           "===========================" ++ nl ++
           "[REPLACE WITH YOUR CURRENT ROOT CAUSE HYPOTHESIS AND CONFIDENCE LEVEL]" ++ nl ++ nl ++
           "NEXT STEPS" ++ nl ++
           "==========" ++ nl ++
           "[ACTION 1] — Owner: [NAME], ETA: [TIME]" ++ nl ++
           "[ACTION 2] — Owner: [NAME], ETA: [TIME]" ++ nl ++ nl ++
           "ESTIMATED RESOLUTION" ++ nl ++
           "====================" ++ nl ++
           "[PROVIDE AN ETA OR STATE " ++ dq ++ "ETA UNKNOWN — next update in 30 minutes" ++ dq ++ "]" ++ nl ++ nl ++
           "Bridge is still active: " ++ zoomUrl ++ nl ++
           "Slack: " ++ slackChannel ++ nl ++ nl ++
           "-- " ++ (commsLead ?. Stakeholder.name ?? "Incident Response Team"))%string
    |};
    {|
      EmailTemplate.phase := "Mitigation In Progress";
      EmailTemplate.timing := "T+[X] (send when a containment action is being executed)";
      EmailTemplate.to := (toImmediate ++ toLevel2)%list;
      EmailTemplate.cc := ccLevel3;
      EmailTemplate.subject := ("[SEV1 — MITIGATION ACTIVE] " ++ incident.(Incident.number) ++ ": Containment action underway for " ++ incident.(Incident.affected_service))%string;
      EmailTemplate.colorBand := Amber;
      EmailTemplate.body := ("Team," ++ nl ++ nl ++
           "We are now executing a containment action for " ++ incident.(Incident.number) ++ "." ++ nl ++ nl ++
           "CONTAINMENT ACTION" ++ nl ++
           "==================" ++ nl ++
           "Action         : [DESCRIBE THE ACTION, e.g., " ++ dq ++ "Failing over Oracle cluster to standby node" ++ dq ++ "]" ++ nl ++
           "Executed By    : [NAME]" ++ nl ++
           "Start Time     : [TIMESTAMP] UTC" ++ nl ++
           "Expected Impact: [e.g., " ++ dq ++ "Brief 30-60 second connection interruption during failover" ++ dq ++ "]" ++ nl ++
           "Expected ETA   : Service should begin recovering within [X] minutes" ++ nl ++ nl ++
           "RISK ASSESSMENT" ++ nl ++
           "===============" ++ nl ++
           "Risk Level  : [High / Medium / Low]" ++ nl ++
           "Rollback Plan: [HOW TO ROLL BACK IF THIS ACTION MAKES THINGS WORSE]" ++ nl ++ nl ++
           "IF THIS ACTION FAILS" ++ nl ++
           "====================" ++ nl ++
           "Escalation to: " ++ orElse (join ", " (map Stakeholder.name level2)) "[LEVEL 2 CONTACTS]" ++ nl ++
           "Vendor support: [VENDOR_NAME] — open ticket at [SUPPORT_URL]" ++ nl ++ nl ++
           "We will send a follow-up update within 15 minutes of execution." ++ nl ++ nl ++
           "Bridge: " ++ zoomUrl ++ nl ++
           "Slack: " ++ slackChannel ++ nl ++ nl ++
           "-- " ++ (commsLead ?. Stakeholder.name ?? ic ?. Stakeholder.name ?? "Incident Response Team"))%string
    |};
    {|
      EmailTemplate.phase := "Service Restored";
      EmailTemplate.timing := "T+[X] (send within 10 minutes of confirming service is restored)";
      EmailTemplate.to := toAll;
      EmailTemplate.cc := [];
      EmailTemplate.subject := ("[SEV1 — RESOLVED ✅] " ++ incident.(Incident.number) ++ ": " ++ incident.(Incident.affected_service) ++ " has been restored")%string;
      EmailTemplate.colorBand := Green;
      EmailTemplate.body := ("Team," ++ nl ++ nl ++
           incident.(Incident.affected_service) ++ " has been restored." ++ nl ++ nl ++
           "RESOLUTION SUMMARY" ++ nl ++
           "==================" ++ nl ++
           "Incident Number  : " ++ incident.(Incident.number) ++ nl ++
           "Affected Service : " ++ incident.(Incident.affected_service) ++ nl ++
           "Incident Opened  : " ++ formatTimestamp detectedAt ++ " UTC" ++ nl ++
           "Service Restored : [RESOLVED_TIMESTAMP] UTC" ++ nl ++
           "Total Duration   : [X hours Y minutes]" ++ nl ++ nl ++
           "ROOT CAUSE (PRELIMINARY)" ++ nl ++
           "========================" ++ nl ++
           "[REPLACE WITH ROOT CAUSE SUMMARY — 2-3 sentences. E.g., " ++ dq ++ "An Oracle RAC primary node failure caused by shared pool memory exhaustion triggered by a runaway query introduced in release v2.4.1 (deployed at 13:45 UTC). Failover to the standby node restored service." ++ dq ++ "]" ++ nl ++ nl ++
           "REMEDIATION APPLIED" ++ nl ++
           "===================" ++ nl ++
           "[ACTION 1 — e.g., " ++ dq ++ "Failover to Oracle standby node prod-oracle-02 at [TIME] UTC" ++ dq ++ "]" ++ nl ++
           "[ACTION 2 — e.g., " ++ dq ++ "Runaway query identified and index added to prevent recurrence" ++ dq ++ "]" ++ nl ++ nl ++
           "MONITORING STATUS" ++ nl ++
           "=================" ++ nl ++
           "✅ Synthetic monitor: GREEN" ++ nl ++
           "✅ Error rate: Within normal range" ++ nl ++
           "✅ P99 latency: Normal" ++ nl ++
           "✅ Customer-facing checkout: Functioning" ++ nl ++ nl ++
           "NEXT STEPS" ++ nl ++
           "==========" ++ nl ++
           "1. Post-Incident Review (PIR) will be scheduled within 5 business days" ++ nl ++
           "2. Root cause analysis in progress" ++ nl ++
           "3. Monitoring continues for the next 2 hours" ++ nl ++ nl ++
           "Thank you to everyone who responded — especially " ++ (ic ?. Stakeholder.name ?? "the Incident Commander") ++ " and " ++ incident.(Incident.assignment_group) ++ "." ++ nl ++ nl ++
           "Full runbook and action log attached." ++ nl ++ nl ++
           "-- " ++ (commsLead ?. Stakeholder.name ?? ic ?. Stakeholder.name ?? "Incident Response Team"))%string
    |};
    {|
      EmailTemplate.phase := "Incident Closed + PIR Invitation";
      EmailTemplate.timing := "T+24h (within 24 hours of resolution, once PIR is scheduled)";
      EmailTemplate.to := (toImmediate ++ toLevel2)%list;
      EmailTemplate.cc := ccLevel3;
      EmailTemplate.subject := ("[" ++ incident.(Incident.number) ++ " CLOSED] Post-Incident Review scheduled — " ++ incident.(Incident.title))%string;
      EmailTemplate.colorBand := Navy;
      EmailTemplate.body := ("Team," ++ nl ++ nl ++
           incident.(Incident.number) ++ " has been formally closed. The Post-Incident Review (PIR) has been scheduled." ++ nl ++ nl ++
           "INCIDENT SUMMARY" ++ nl ++
           "================" ++ nl ++
           "Incident : " ++ incident.(Incident.number) ++ nl ++
           "Service  : " ++ incident.(Incident.affected_service) ++ nl ++
           "Severity : " ++ incident.(Incident.severity) ++ nl ++
           "Duration : [X hours Y minutes]" ++ nl ++
           "Customers Affected: [NUMBER / PERCENTAGE]" ++ nl ++
           "Business Impact: " ++ incident.(Incident.business_impact) ++ nl ++ nl ++
           "PIR DETAILS" ++ nl ++
           "===========" ++ nl ++
           "Date    : [PIR_DATE]" ++ nl ++
           "Time    : [PIR_TIME] UTC" ++ nl ++
           "Duration: 60 minutes" ++ nl ++
           "Link    : [ZOOM_OR_CALENDAR_LINK]" ++ nl ++ nl ++
           "Attendees (required):" ++ nl ++
           (ic ?. Stakeholder.name ?? "[INCIDENT COMMANDER]") ++ " — Incident Commander" ++ nl ++
           "[TECHNICAL LEAD NAME]" ++ nl ++
           "[COMMS LEAD NAME]" ++ nl ++
           "[ADD OTHER KEY RESPONDERS]" ++ nl ++ nl ++
           "PRE-READ MATERIALS" ++ nl ++
           "==================" ++ nl ++
           "Please review these before the PIR:" ++ nl ++
           "1. Incident runbook: [LINK TO .docx]" ++ nl ++
           "2. Action tracker / timeline: [LINK TO .xlsx]" ++ nl ++
           "3. Preliminary root cause document: [LINK]" ++ nl ++ nl ++
           "PIR AGENDA" ++ nl ++
           "==========" ++ nl ++
           "1. Timeline walkthrough (15 min)" ++ nl ++
           "2. Root cause deep dive (20 min)" ++ nl ++
           "3. What went well (10 min)" ++ nl ++
           "4. What to improve (10 min)" ++ nl ++
           "5. Action item assignment (5 min)" ++ nl ++ nl ++
           "If you cannot attend, please send your notes to " ++ (ic ?. Stakeholder.email ?? "[IC_EMAIL]") ++ " before the meeting." ++ nl ++ nl ++
           "-- " ++ (commsLead ?. Stakeholder.name ?? ic ?. Stakeholder.name ?? "Incident Response Team"))%string
    |}
  ].

(* ================================================================== *)
(** * Escalation Entries Builder *)
(* ================================================================== *)

Definition buildEscalationEntries (stakeholders : list Stakeholder.t)
  : list EscalationEntry.t :=
  mapi (fun s i =>
    {| EscalationEntry.id := ("ESC-" ++ padStart 3 "0" (String_ (i + 1)))%string;
       EscalationEntry.contactName := s.(Stakeholder.name);
       EscalationEntry.role := s.(Stakeholder.role);
       EscalationEntry.method :=
         if s.(Stakeholder.notify_immediately) then "Phone + Slack + Email" else "Slack + Email" |})
    stakeholders.

(* ================================================================== *)
(** * Main Entry Point *)
(* ================================================================== *)

(** [now] is the value of [new Date().toISOString()] at the time of the call.
    [commsLead ?? null] is [commsLead]: [findByRole] already returns null,
    never undefined. *)
Definition generateRunbook (now : string) (incident : Incident.t)
  (stakeholders : list Stakeholder.t) (vendors : list VendorEscalation.t)
  : RunbookOutput.t :=
  let ic := findByRole stakeholders "Incident Commander" in
  let techLead := findByRole stakeholders "Technical Lead" in
  let commsLead := findByRole stakeholders "Communications Lead" in
  let customerLead := findByRole stakeholders "Customer Impact" in
  let execSponsor := findByRole stakeholders "Executive Sponsor" in
  let bridgeHolder :=
    match find (fun s => truthy s.(Stakeholder.bridge_url)) stakeholders with
    | Some s => Some s
    | None => ic
    end in

  let zoomUrl := bridgeHolder ?.? Stakeholder.bridge_url ?? "[ZOOM_BRIDGE_URL]" in
  let bridgePhone := bridgeHolder ?.? Stakeholder.bridge_phone ?? "[BRIDGE_DIAL_IN]" in
  let slackChannel := ("#inc" ++ stripNonAlnum (toLowerCase incident.(Incident.number)))%string in
  let detectedAt := incident.(Incident.detected_at) ?? incident.(Incident.opened_at) in

  let emailTemplates :=
    buildEmailTemplates incident stakeholders ic commsLead zoomUrl slackChannel in

  let '(sections, ledger) :=
    (s1 <- ret (buildSection1 incident) ;;
     s2 <- buildSection2 incident ic zoomUrl slackChannel addAction ;;
     s3 <- buildSection3 incident stakeholders ic commsLead emailTemplates addAction ;;
     s4 <- buildSection4 incident ic techLead addAction ;;
     s5 <- buildSection5 incident techLead addAction ;;
     s6 <- ret (buildSection6 stakeholders vendors) ;;
     s7 <- buildSection7 incident ic addAction ;;
     s8 <- buildSection8 incident ic commsLead addAction ;;
     ret [s1; s2; s3; s4; s5; s6; s7; s8])
      {| actionItems := []; actionCounter := 1 |} in

  let escalationEntries := buildEscalationEntries stakeholders in

  {| RunbookOutput.incident := incident;
     RunbookOutput.stakeholders := stakeholders;
     RunbookOutput.vendors := vendors;
     RunbookOutput.sections := sections;
     RunbookOutput.emailTemplates := emailTemplates;
     RunbookOutput.actionItems := ledger.(actionItems);
     RunbookOutput.escalationEntries := escalationEntries;
     RunbookOutput.generatedAt := now;
     RunbookOutput.slackChannel := slackChannel;
     RunbookOutput.zoomUrl := zoomUrl;
     RunbookOutput.incidentCommander := ic;
     RunbookOutput.technicalLead := techLead;
     RunbookOutput.commsLead := commsLead |}.

End Generator.

(* ================================================================== *)
(** * Vocabulary of the specification *)
(* ================================================================== *)

Local Open Scope list_scope.

(** [sub] occurs in [s]. *)
Definition Contains (s sub : string) : Prop :=
  exists a b, s = (a ++ sub ++ b)%string.

(** A stakeholder's role text contains the keyword, letter case ignored. *)
Definition RoleMatches (roleKeyword : string) (s : Stakeholder.t) : Prop :=
  Contains (toLowerCase s.(Stakeholder.role)) (toLowerCase roleKeyword).

(** The incident's category contains [word], letter case ignored. *)
Definition categoryHas (incident : Incident.t) (word : string) : bool :=
  includes (toLowerCase incident.(Incident.category)) word.

(** Section [n] of a runbook: the section carrying that number. *)
Definition section (n : nat) (out : RunbookOutput.t) : option RunbookSection.t :=
  find (fun s => (s.(RunbookSection.sectionNumber) =? n)%nat) out.(RunbookOutput.sections).

Definition sectionBlocks (n : nat) (out : RunbookOutput.t) : list RunbookBlock :=
  match section n out with
  | Some s => s.(RunbookSection.blocks)
  | None => []
  end.

(** [l] without its first [front] and its last [back] elements. *)
Definition inner {A : Type} (front back : nat) (l : list A) : list A :=
  firstn (length l - front - back) (skipn front l).

(** The category-specific blocks of Section 4: what stands between its two
    introductory blocks and the three blocks of the hypothesis log. *)
Definition diagnosisSteps (out : RunbookOutput.t) : list RunbookBlock :=
  inner 2 3 (sectionBlocks 4 out).

(** The category-specific blocks of Section 5: what follows its two
    introductory blocks. *)
Definition containmentSteps (out : RunbookOutput.t) : list RunbookBlock :=
  inner 2 0 (sectionBlocks 5 out).

Definition isNumberedStep (b : RunbookBlock) : bool :=
  match b with
  | numbered_step _ _ => true
  | _ => false
  end.

Definition isDecisionTree (b : RunbookBlock) : bool :=
  match b with
  | decision_tree _ _ => true
  | _ => false
  end.

Definition isCriticalAlert (b : RunbookBlock) : bool :=
  match b with
  | alert_box AlertCritical _ => true
  | _ => false
  end.

Definition isTable (b : RunbookBlock) : bool :=
  match b with
  | table _ => true
  | _ => false
  end.

Definition isHeading (title : string) (b : RunbookBlock) : bool :=
  match b with
  | heading _ text => String.eqb text title
  | _ => false
  end.

(** The text of the first numbered step of a block list. *)
Fixpoint firstNumberedStep (bs : list RunbookBlock) : option string :=
  match bs with
  | [] => None
  | numbered_step _ text :: _ => Some text
  | _ :: rest => firstNumberedStep rest
  end.

(** A decision-tree branch sends the reader to a step of Section 5. *)
Definition refersToContainmentStep (b : Branch.t) : bool :=
  includes b.(Branch.action) "Section 5, Step ".

(** A decision-tree branch is an escalation. *)
Definition escalates (b : Branch.t) : bool :=
  String.prefix "Escalate" b.(Branch.action).

(** The one branch of a decision tree that is neither the default nor a
    reference to a containment step: the Application tree sends an upstream
    dependency failure back to diagnosis. *)
Definition upstreamDependency : string := "Upstream dependency failure (DB, API, cache)".

(** The sentence of the Security alert that mandates escalation before
    containment. *)
Definition securityMandate : string :=
  "Escalate immediately to the CISO and Legal team BEFORE taking any containment action".

(** The identifiers of the two ledgers. *)
Definition actId (k : nat) : string := ("ACT-" ++ padStart 3 "0" (String_ k))%string.

Definition escId (k : nat) : string := ("ESC-" ++ padStart 3 "0" (String_ k))%string.

(** The ledger is numbered from 1 without gaps, and the counter is one
    past its length. *)
Definition LedgerOk (st : Ledger) : Prop :=
  st.(actionCounter) = S (length st.(actionItems)) /\
  map ActionItem.id st.(actionItems) = map actId (seq 1 (length st.(actionItems))).

(** A computation keeps the ledger well numbered and appends exactly [k]
    items to it. *)
Definition Appends {A : Type} (k : nat) (m : M A) : Prop :=
  forall st, LedgerOk st ->
    LedgerOk (snd (m st)) /\
    length (snd (m st)).(actionItems) = length st.(actionItems) + k.

(** Phase, recipients and carbon copies of a template. *)
Definition routing (t : EmailTemplate.t) : string * list string * list string :=
  (t.(EmailTemplate.phase), t.(EmailTemplate.to), t.(EmailTemplate.cc)).

Definition emailsOf (p : Stakeholder.t -> bool) (stakeholders : list Stakeholder.t)
  : list string :=
  map Stakeholder.email (filter p stakeholders).

Definition isImmediate (s : Stakeholder.t) : bool :=
  s.(Stakeholder.notify_immediately) || (s.(Stakeholder.escalation_level) =? 1)%nat.

Definition isLevel (n : nat) (s : Stakeholder.t) : bool :=
  (s.(Stakeholder.escalation_level) =? n)%nat.

(** The output with another generation timestamp. *)
Definition withGeneratedAt (now : string) (out : RunbookOutput.t) : RunbookOutput.t :=
  {| RunbookOutput.incident := out.(RunbookOutput.incident);
     RunbookOutput.stakeholders := out.(RunbookOutput.stakeholders);
     RunbookOutput.vendors := out.(RunbookOutput.vendors);
     RunbookOutput.sections := out.(RunbookOutput.sections);
     RunbookOutput.emailTemplates := out.(RunbookOutput.emailTemplates);
     RunbookOutput.actionItems := out.(RunbookOutput.actionItems);
     RunbookOutput.escalationEntries := out.(RunbookOutput.escalationEntries);
     RunbookOutput.generatedAt := now;
     RunbookOutput.slackChannel := out.(RunbookOutput.slackChannel);
     RunbookOutput.zoomUrl := out.(RunbookOutput.zoomUrl);
     RunbookOutput.incidentCommander := out.(RunbookOutput.incidentCommander);
     RunbookOutput.technicalLead := out.(RunbookOutput.technicalLead);
     RunbookOutput.commsLead := out.(RunbookOutput.commsLead) |}.

(* ================================================================== *)
(** * Sample inputs *)
(* ================================================================== *)

(** A date service for the examples: it renders ISO texts as they are
    and knows no other date. *)
Definition sampleDate (iso : string) : option string :=
  if String.prefix "20" iso then Some iso else None.

Definition incidentWith (number category : string) : Incident.t :=
  {| Incident.number := number;
     Incident.title := "Checkout is down";
     Incident.severity := "1 - Critical";
     Incident.priority := "1 - Critical";
     Incident.state := "In Progress";
     Incident.category := category;
     Incident.subcategory := "Outage";
     Incident.affected_service := "Customer Portal";
     Incident.affected_ci := "db-01";
     Incident.environment := "Production";
     Incident.region := Some "us-east-1";
     Incident.business_impact := "Customers cannot check out";
     Incident.opened_at := "2026-02-26T14:00:00.000Z";
     Incident.detected_at := None;
     Incident.assigned_to := "On-call DBA";
     Incident.assignment_group := "Database Operations";
     Incident.caller_id := "Monitoring";
     Incident.short_description := "Checkout is down";
     Incident.description := "Primary node unreachable";
     Incident.change_related := false;
     Incident.related_incident := "";
     Incident.resolution_notes := "";
     Incident.close_code := "" |}.

Definition sampleIncident : Incident.t := incidentWith "INC0001" "Database".

Definition person (name role email : string) (level : nat) (immediately : bool)
  : Stakeholder.t :=
  {| Stakeholder.name := name;
     Stakeholder.role := role;
     Stakeholder.title := "Engineer";
     Stakeholder.team := "Operations";
     Stakeholder.email := email;
     Stakeholder.phone := "+1-555-0100";
     Stakeholder.slack := ("@" ++ toLowerCase name)%string;
     Stakeholder.escalation_level := level;
     Stakeholder.notify_immediately := immediately;
     Stakeholder.bridge_url := None;
     Stakeholder.bridge_phone := None |}.

Definition alice : Stakeholder.t :=
  person "Alice" "Incident Commander" "alice@example.com" 1 true.

Definition bob : Stakeholder.t :=
  person "Bob" "Technical Lead" "bob@example.com" 1 true.

Definition stakeholderA : Stakeholder.t :=
  person "A" "Incident Commander" "a@example.com" 1 true.

Definition stakeholderB : Stakeholder.t :=
  person "B" "Technical Lead" "b@example.com" 2 false.

Definition stakeholderC : Stakeholder.t :=
  person "C" "Executive Sponsor" "c@example.com" 3 false.

(** A level-2 contact who is also to be notified immediately. *)
Definition dana : Stakeholder.t :=
  person "Dana" "Customer Impact Lead" "dana@example.com" 2 true.

Definition primaryLead : Stakeholder.t :=
  person "Pat" "Technical Lead (Primary)" "pat@example.com" 1 true.

Definition secondaryLead : Stakeholder.t :=
  person "Sam" "Technical Lead (Secondary)" "sam@example.com" 1 false.

(* ================================================================== *)
(** * The string primitives on examples *)
(* ================================================================== *)

Example toLowerCase_ex : JS.toLowerCase "INC-0001 Db" = "inc-0001 db".
Proof. reflexivity. Qed.

Example includes_ex :
  JS.includes "cloud/infra" "infra" = true /\ JS.includes "cloud" "infra" = false.
Proof. split; reflexivity. Qed.

Example replaceFirst_ex : JS.replaceFirst "inc" "#inc" "inc00inc1" = "#inc00inc1".
Proof. reflexivity. Qed.

Example replaceFractionZ_ex :
  JS.replaceFractionZ " UTC" "2026-02-26 14:05:00.000Z" = "2026-02-26 14:05:00 UTC".
Proof. reflexivity. Qed.

Example padStart_ex :
  JS.padStart 3 "0" (JS.String_ 7) = "007" /\
  JS.padStart 3 "0" (JS.String_ 23) = "023" /\
  JS.padStart 3 "0" (JS.String_ 1234) = "1234".
Proof. repeat split; reflexivity. Qed.

(* ================================================================== *)
(** * Facts about the string primitives *)
(* ================================================================== *)

Section StringFacts.

Lemma prefix_spec (p s : string) :
  String.prefix p s = true <-> exists b, s = (p ++ b)%string.
Proof.
  revert s; induction p as [|c p IH]; intros s.
  - split; [intros _; now exists s | intros _; now destruct s].
  - destruct s as [|d s]; cbn [String.prefix append].
    + split; [discriminate | intros [b Hb]; discriminate].
    + destruct (Ascii.ascii_dec c d) as [->|Hne].
      * rewrite IH. split; intros [b Hb]; exists b.
        -- now rewrite Hb.
        -- now inversion Hb.
      * split; [discriminate | intros [b Hb]; inversion Hb; subst; now elim Hne].
Qed.

Lemma includes_spec (s sub : string) :
  includes s sub = true <-> Contains s sub.
Proof.
  unfold Contains. induction s as [|c s IH].
  - cbn [includes]. rewrite orb_false_r, prefix_spec. split.
    + intros [b Hb]. now exists EmptyString, b.
    + intros [[|x a] [b Hb]]; [now exists b | discriminate].
  - cbn [includes]. rewrite orb_true_iff, prefix_spec, IH. split.
    + intros [[b Hb] | [a [b Hb]]].
      * now exists EmptyString, b.
      * exists (String c a), b. simpl. now rewrite Hb.
    + intros [[|x a] [b Hb]].
      * left. now exists b.
      * right. simpl in Hb. inversion Hb; subst. now exists a, b.
Qed.

Lemma includes_false (s sub : string) :
  includes s sub = false <-> ~ Contains s sub.
Proof.
  rewrite <- includes_spec. destruct (includes s sub); split; congruence.
Qed.

End StringFacts.

(* ================================================================== *)
(** * Role resolution *)
(* ================================================================== *)

Section RoleResolution.

Variable roleKeyword : string.

Let matches (s : Stakeholder.t) : bool :=
  includes (toLowerCase s.(Stakeholder.role)) (toLowerCase roleKeyword).

Lemma matches_spec (s : Stakeholder.t) :
  matches s = true <-> RoleMatches roleKeyword s.
Proof. apply includes_spec. Qed.

Lemma findByRole_first (stakeholders : list Stakeholder.t) :
  match findByRole stakeholders roleKeyword with
  | Some s =>
      exists before after,
        stakeholders = before ++ s :: after /\
        RoleMatches roleKeyword s /\
        Forall (fun x => ~ RoleMatches roleKeyword x) before
  | None => Forall (fun x => ~ RoleMatches roleKeyword x) stakeholders
  end.
Proof.
  unfold findByRole. fold matches.
  induction stakeholders as [|x rest IH]; cbn [find].
  - constructor.
  - destruct (matches x) eqn:Hx.
    + exists [], rest. repeat split; [now apply matches_spec | constructor].
    + assert (Hnot : ~ RoleMatches roleKeyword x).
      { rewrite <- matches_spec. congruence. }
      destruct (find matches rest) as [s|].
      * destruct IH as (before & after & -> & Hs & Hbefore).
        exists (x :: before), after. repeat split; auto.
      * constructor; auto.
Qed.

End RoleResolution.

(* ================================================================== *)
(** * The action ledger *)
(* ================================================================== *)

Section LedgerInvariant.

Lemma LedgerOk_init : LedgerOk {| actionItems := []; actionCounter := 1 |}.
Proof. split; reflexivity. Qed.

Lemma Appends_ret {A : Type} (a : A) : Appends 0 (ret a).
Proof.
  intros st Hst. unfold ret; cbn [snd]. split; [assumption | lia].
Qed.

Lemma Appends_addAction phase action owner team priority targetBy :
  Appends 1 (addAction phase action owner team priority targetBy).
Proof.
  intros [items counter] [Hcounter Hids]. cbn [actionItems actionCounter] in *.
  unfold addAction, LedgerOk; cbn [snd actionItems actionCounter].
  rewrite length_app; cbn [length]. repeat split; try lia.
  rewrite map_app, Hids; cbn [map ActionItem.id].
  replace (length items + 1) with (S (length items)) by lia.
  rewrite seq_S, map_app; cbn [map]. subst counter. reflexivity.
Qed.

Lemma Appends_bind {A B : Type} (k1 k2 : nat) (m : M A) (f : A -> M B) :
  Appends k1 m -> (forall a, Appends k2 (f a)) -> Appends (k1 + k2) (bind m f).
Proof.
  intros Hm Hf st Hst. unfold bind.
  destruct (m st) as [a st'] eqn:Em.
  destruct (Hm st Hst) as [Hok Hlen]. rewrite Em in Hok, Hlen; cbn [snd] in Hok, Hlen.
  destruct (Hf a st' Hok) as [Hok' Hlen']. split; [assumption | lia].
Qed.

End LedgerInvariant.

(** Walks through a builder: one [addAction] after the other, then the
    pure construction of the section. *)
Ltac ledger :=
  lazymatch goal with
  | |- Appends _ (bind (addAction _ _ _ _ _ _) _) =>
      apply (Appends_bind 1 _); [apply Appends_addAction | intros _; ledger]
  | |- Appends _ (ret _) => apply Appends_ret
  | |- Appends _ _ => cbv zeta; ledger
  end.

Section Builders.

Variable Date_toISOString : string -> option string.
Variable incident : Incident.t.
Variables ic techLead commsLead : option Stakeholder.t.

Lemma buildSection2_appends zoomUrl slackChannel :
  Appends 4 (buildSection2 incident ic zoomUrl slackChannel addAction).
Proof. unfold buildSection2. ledger. Qed.

Lemma buildSection3_appends stakeholders emailTemplates :
  Appends 4 (buildSection3 incident stakeholders ic commsLead emailTemplates addAction).
Proof. unfold buildSection3. ledger. Qed.

Lemma buildSection4_appends :
  Appends 4 (buildSection4 incident ic techLead addAction).
Proof. unfold buildSection4. ledger. Qed.

Lemma buildSection5_appends :
  Appends 3 (buildSection5 incident techLead addAction).
Proof. unfold buildSection5. ledger. Qed.

Lemma buildSection7_appends :
  Appends 5 (buildSection7 incident ic addAction).
Proof. unfold buildSection7. ledger. Qed.

Lemma buildSection8_appends :
  Appends 3 (buildSection8 incident ic commsLead addAction).
Proof. unfold buildSection8. ledger. Qed.

End Builders.

Lemma generateRunbook_ledger parse now incident stakeholders vendors :
  let ledger :=
    RunbookOutput.actionItems (generateRunbook parse now incident stakeholders vendors) in
  length ledger = 23 /\
  map ActionItem.id ledger = map actId (seq 1 (length ledger)).
Proof.
  unfold generateRunbook. cbv zeta.
  match goal with
  | |- context [let '(_, _) := ?m ?st in _] =>
      assert (H : Appends 23 m); [| specialize (H st LedgerOk_init); destruct (m st) as [sections ledger] ]
  end.
  - apply (Appends_bind 0 _); [apply Appends_ret | intros s1].
    apply (Appends_bind 4 _); [apply buildSection2_appends | intros s2].
    apply (Appends_bind 4 _); [apply buildSection3_appends | intros s3].
    apply (Appends_bind 4 _); [apply buildSection4_appends | intros s4].
    apply (Appends_bind 3 _); [apply buildSection5_appends | intros s5].
    apply (Appends_bind 0 _); [apply Appends_ret | intros s6].
    apply (Appends_bind 5 _); [apply buildSection7_appends | intros s7].
    apply (Appends_bind 3 _); [apply buildSection8_appends | intros s8].
    apply Appends_ret.
  - cbn [snd actionItems length Nat.add RunbookOutput.actionItems] in *.
    destruct H as [[_ Hids] Hlen]. split; assumption.
Qed.

(* ================================================================== *)
(** * The escalation ledger *)
(* ================================================================== *)

Section Escalation.

Context {A B : Type} (f : A -> nat -> B).

Lemma mapiFrom_length (xs : list A) (i : nat) :
  length (mapiFrom f i xs) = length xs.
Proof.
  revert i; induction xs as [|x xs IH]; intros i; cbn [mapiFrom length]; congruence.
Qed.

Lemma mapiFrom_map {C : Type} (g : B -> C) (h : A -> nat -> C) (xs : list A) (i : nat) :
  (forall x k, g (f x k) = h x k) ->
  map g (mapiFrom f i xs) = mapiFrom h i xs.
Proof.
  intros Hgh. revert i; induction xs as [|x xs IH]; intros i; cbn [mapiFrom map].
  - reflexivity.
  - now rewrite Hgh, IH.
Qed.

End Escalation.

Lemma mapiFrom_index {A C : Type} (h : nat -> C) (xs : list A) (i : nat) :
  mapiFrom (fun _ k => h (k + 1)) i xs = map h (seq (i + 1) (length xs)).
Proof.
  revert i; induction xs as [|x xs IH]; intros i; cbn [mapiFrom length seq map].
  - reflexivity.
  - now rewrite (IH (S i)).
Qed.

Lemma mapiFrom_element {A C : Type} (h : A -> C) (xs : list A) (i : nat) :
  mapiFrom (fun x _ => h x) i xs = map h xs.
Proof.
  revert i; induction xs as [|x xs IH]; intros i; cbn [mapiFrom map].
  - reflexivity.
  - now rewrite IH.
Qed.

(* ================================================================== *)
(** * The fields of the output *)
(* ================================================================== *)

(** Opens [generateRunbook] and names the result of the section pass. *)
Ltac open_generateRunbook :=
  unfold generateRunbook; cbv zeta;
  match goal with
  | |- context [let '(_, _) := ?m ?st in _] =>
      let sections := fresh "sections" in
      let ledger := fresh "ledger" in
      destruct (m st) as [sections ledger] eqn:?
  end.

Section OutputFields.

Variable parse : string -> option string.
Variable now : string.
Variable incident : Incident.t.
Variable stakeholders : list Stakeholder.t.
Variable vendors : list VendorEscalation.t.

Local Abbreviation out := (generateRunbook parse now incident stakeholders vendors).

Lemma generateRunbook_roles :
  out.(RunbookOutput.incidentCommander) = findByRole stakeholders "Incident Commander" /\
  out.(RunbookOutput.technicalLead) = findByRole stakeholders "Technical Lead" /\
  out.(RunbookOutput.commsLead) = findByRole stakeholders "Communications Lead".
Proof. open_generateRunbook. repeat split. Qed.

Lemma generateRunbook_slackChannel :
  out.(RunbookOutput.slackChannel) =
  ("#inc" ++ stripNonAlnum (toLowerCase incident.(Incident.number)))%string.
Proof. open_generateRunbook. reflexivity. Qed.

Lemma generateRunbook_generatedAt : out.(RunbookOutput.generatedAt) = now.
Proof. open_generateRunbook. reflexivity. Qed.

Lemma generateRunbook_escalationEntries :
  out.(RunbookOutput.escalationEntries) = buildEscalationEntries stakeholders.
Proof. open_generateRunbook. reflexivity. Qed.

End OutputFields.


(* ================================================================== *)
(** * Category routing in Sections 4 and 5 *)
(* ================================================================== *)

Lemma inner_app {A : Type} (front middle back : list A) :
  inner (length front) (length back) (front ++ middle ++ back) = middle.
Proof.
  unfold inner. rewrite !length_app.
  rewrite skipn_app, skipn_all, Nat.sub_diag. cbn [skipn app].
  replace (length front + (length middle + length back) - length front - length back)
    with (length middle) by lia.
  rewrite firstn_app, firstn_all, Nat.sub_diag. cbn [firstn]. apply app_nil_r.
Qed.

(** Reduces the section pass of [generateRunbook] down to the blocks of
    one section, leaving the texts and the routing tests as they are. *)
Ltac section_blocks :=
  cbv beta iota zeta delta
    [diagnosisSteps containmentSteps sectionBlocks section categoryHas
     generateRunbook bind ret addAction
     buildSection1 buildSection2 buildSection3 buildSection4 buildSection5
     buildSection6 buildSection7 buildSection8
     find Nat.eqb RunbookOutput.sections
     RunbookSection.sectionNumber RunbookSection.blocks].

Section Routing.

Variable parse : string -> option string.
Variable now : string.
Variable incident : Incident.t.
Variable stakeholders : list Stakeholder.t.
Variable vendors : list VendorEscalation.t.

Local Abbreviation out := (generateRunbook parse now incident stakeholders vendors).
Local Abbreviation has := (categoryHas incident).

Lemma diagnosisSteps_routed :
  diagnosisSteps out =
    if has "database" then getDatabaseDiagnosisSteps incident
    else if has "network" then getNetworkDiagnosisSteps incident
    else if has "application" then getApplicationDiagnosisSteps incident
    else if has "cloud" || has "infra" then getCloudInfraDiagnosisSteps incident
    else if has "security" then getSecurityDiagnosisSteps incident
    else getGenericDiagnosisSteps incident.
Proof.
  section_blocks. rewrite <- app_assoc.
  match goal with
  | |- inner 2 3 (?front ++ ?middle ++ ?back) = _ => exact (inner_app front middle back)
  end.
Qed.

Lemma containmentSteps_routed :
  containmentSteps out =
    if has "database" then getDatabaseContainmentSteps incident
    else if has "network" then getNetworkContainmentSteps incident
    else if has "application" then getApplicationContainmentSteps incident
    else if has "cloud" || has "infra" then getCloudInfraContainmentSteps incident
    else getGenericContainmentSteps incident.
Proof.
  section_blocks.
  match goal with
  | |- inner 2 0 (?front ++ ?middle) = _ =>
      rewrite <- (app_nil_r middle) at 1; exact (inner_app front middle [])
  end.
Qed.

Lemma section4_shape :
  exists intro log,
    sectionBlocks 4 out = intro ++ diagnosisSteps out ++ log /\
    length intro = 2 /\ length log = 3.
Proof.
  rewrite diagnosisSteps_routed. section_blocks. rewrite <- app_assoc.
  do 2 eexists. split; [reflexivity | split; reflexivity].
Qed.

Lemma section5_shape :
  exists intro,
    sectionBlocks 5 out = intro ++ containmentSteps out /\ length intro = 2.
Proof.
  rewrite containmentSteps_routed. section_blocks.
  eexists. split; reflexivity.
Qed.

End Routing.

(* ================================================================== *)
(** * Shapes of the diagnosis sequences *)
(* ================================================================== *)

(** Splits a list given by its elements into all but the last and the last. *)
Ltac init_last l :=
  lazymatch l with
  | ?x :: nil => let T := type of x in constr:((@nil T, x))
  | ?x :: ?rest =>
      let p := init_last rest in
      lazymatch p with
      | (?init, ?y) => constr:((x :: init, y))
      end
  end.

(** Names the steps, the question, the branches and the fallback branch of
    a diagnosis sequence that ends in a decision tree. *)
Ltac name_decision_tree :=
  lazymatch goal with
  | |- exists steps question branches fallback, ?l = _ /\ _ =>
      let p := init_last l in
      lazymatch p with
      | (?steps, decision_tree ?question ?all) =>
          let q := init_last all in
          lazymatch q with
          | (?branches, ?fallback) => exists steps, question, branches, fallback
          end
      end
  end.

(** The generic fallback sequence holds no decision tree either: it is a
    run of four numbered steps. *)
Lemma generic_diagnosis_has_no_decision_tree (incident : Incident.t) :
  length (getGenericDiagnosisSteps incident) = 4 /\
  forallb isNumberedStep (getGenericDiagnosisSteps incident) = true /\
  existsb isDecisionTree (getGenericDiagnosisSteps incident) = false.
Proof. repeat split. Qed.

(* ================================================================== *)
(** * E-mail recipients *)
(* ================================================================== *)

Section Recipients.

Context {A B : Type} (f : A -> B).

Lemma NoDup_map_filter (p : A -> bool) (l : list A) :
  NoDup (map f l) -> NoDup (map f (filter p l)).
Proof.
  induction l as [|x l IH]; cbn [map filter]; intros Hnd; [constructor |].
  inversion Hnd as [|? ? Hnotin Hrest]; subst.
  destruct (p x); cbn [map]; auto.
  constructor; auto.
  intros Hin. apply Hnotin. apply in_map_iff in Hin. destruct Hin as (y & Hy & Hin).
  apply filter_In in Hin. apply in_map_iff. exists y. tauto.
Qed.

Lemma NoDup_map_injective (l : list A) (a b : A) :
  NoDup (map f l) -> In a l -> In b l -> f a = f b -> a = b.
Proof.
  induction l as [|x l IH]; cbn [map In]; intros Hnd Ha Hb Hab; [contradiction |].
  inversion Hnd as [|? ? Hnotin Hrest]; subst.
  destruct Ha as [-> | Ha], Hb as [-> | Hb]; auto.
  - elim Hnotin. rewrite Hab. now apply in_map.
  - elim Hnotin. rewrite <- Hab. now apply in_map.
Qed.

End Recipients.

Lemma generateRunbook_emailTemplates parse now incident stakeholders vendors :
  exists ic commsLead zoomUrl slackChannel,
    RunbookOutput.emailTemplates (generateRunbook parse now incident stakeholders vendors) =
    buildEmailTemplates parse incident stakeholders ic commsLead zoomUrl slackChannel.
Proof. open_generateRunbook. do 4 eexists. reflexivity. Qed.

Section RecipientRules.

Variable stakeholders : list Stakeholder.t.

Hypothesis distinct_emails : NoDup (map Stakeholder.email stakeholders).

Hypothesis level2_not_immediate :
  forall s, In s stakeholders ->
    s.(Stakeholder.escalation_level) = 2 -> s.(Stakeholder.notify_immediately) = false.

Lemma immediate_level2_recipients_distinct :
  NoDup (emailsOf isImmediate stakeholders ++ emailsOf (isLevel 2) stakeholders).
Proof.
  unfold emailsOf. apply NoDup_app; try now apply NoDup_map_filter.
  intros e Himm Hl2.
  apply in_map_iff in Himm; destruct Himm as (s1 & <- & Hs1).
  apply in_map_iff in Hl2; destruct Hl2 as (s2 & Heq & Hs2).
  apply filter_In in Hs1; destruct Hs1 as [Hin1 Himm].
  apply filter_In in Hs2; destruct Hs2 as [Hin2 Hl2].
  assert (s2 = s1) by (eapply NoDup_map_injective; eauto). subst s2.
  unfold isImmediate, isLevel in *. apply Nat.eqb_eq in Hl2.
  rewrite (level2_not_immediate s1 Hin1 Hl2), Hl2 in Himm. discriminate.
Qed.

End RecipientRules.

(* ================================================================== *)
(** * The properties of the specification *)
(* ================================================================== *)

(** C1.  The end-to-end scenario: for an incident with number "INC0001",
    category "Database", affected CI "db-01" and severity "1 - Critical",
    the stakeholders Alice (Incident Commander, level 1, notified
    immediately) and Bob (Technical Lead, level 1, notified immediately) and
    no vendor, the output names Alice as Incident Commander and Bob as
    Technical Lead, has no Communications Lead, has the chat channel
    "#incinc0001" and six e-mail templates; its Section 6 holds no vendor
    heading and no third table, and the category-specific blocks of its
    Section 4 are the seven Database diagnosis blocks. *)
Theorem C1_end_to_end_scenario :
  forall (parse : string -> option string) (now : string) (incident : Incident.t)
         (commander lead : Stakeholder.t),
    incident.(Incident.number) = "INC0001"%string ->
    incident.(Incident.category) = "Database"%string ->
    incident.(Incident.affected_ci) = "db-01"%string ->
    incident.(Incident.severity) = "1 - Critical"%string ->
    commander.(Stakeholder.name) = "Alice"%string ->
    commander.(Stakeholder.role) = "Incident Commander"%string ->
    commander.(Stakeholder.escalation_level) = 1 ->
    commander.(Stakeholder.notify_immediately) = true ->
    lead.(Stakeholder.name) = "Bob"%string ->
    lead.(Stakeholder.role) = "Technical Lead"%string ->
    lead.(Stakeholder.escalation_level) = 1 ->
    lead.(Stakeholder.notify_immediately) = true ->
    let out := generateRunbook parse now incident [commander; lead] [] in
    out.(RunbookOutput.incidentCommander) = Some commander /\
    option_map Stakeholder.name out.(RunbookOutput.incidentCommander) = Some "Alice"%string /\
    out.(RunbookOutput.technicalLead) = Some lead /\
    option_map Stakeholder.name out.(RunbookOutput.technicalLead) = Some "Bob"%string /\
    out.(RunbookOutput.commsLead) = None /\
    out.(RunbookOutput.slackChannel) = "#incinc0001"%string /\
    length out.(RunbookOutput.emailTemplates) = 6 /\
    existsb (isHeading "Vendor / Third-Party Escalation") (sectionBlocks 6 out) = false /\
    length (filter isTable (sectionBlocks 6 out)) = 2 /\
    length (sectionBlocks 6 out) = 4 /\
    diagnosisSteps out = getDatabaseDiagnosisSteps incident /\
    length (diagnosisSteps out) = 7.
Proof.
  intros parse now incident commander lead Hnumber Hcategory Hci Hseverity
    Hname1 Hrole1 Hlevel1 Hnotify1 Hname2 Hrole2 Hlevel2 Hnotify2 out.
  destruct (generateRunbook_roles parse now incident [commander; lead] [])
    as (Hic & Htech & Hcomms).
  fold out in Hic, Htech, Hcomms.
  unfold findByRole in Hic, Htech, Hcomms; cbn [find] in Hic, Htech, Hcomms.
  rewrite Hrole1, Hrole2 in Hic, Htech, Hcomms.
  change (out.(RunbookOutput.incidentCommander) = Some commander) in Hic.
  change (out.(RunbookOutput.technicalLead) = Some lead) in Htech.
  change (out.(RunbookOutput.commsLead) = None) in Hcomms.
  assert (Hdiag : diagnosisSteps out = getDatabaseDiagnosisSteps incident).
  { subst out. rewrite diagnosisSteps_routed.
    unfold categoryHas. rewrite Hcategory. reflexivity. }
  split; [exact Hic |].
  split; [rewrite Hic; cbn [option_map]; now rewrite Hname1 |].
  split; [exact Htech |].
  split; [rewrite Htech; cbn [option_map]; now rewrite Hname2 |].
  split; [exact Hcomms |].
  split; [subst out; rewrite generateRunbook_slackChannel, Hnumber; reflexivity |].
  split.
  { destruct (generateRunbook_emailTemplates parse now incident [commander; lead] [])
      as (ic & commsLead & zoomUrl & slackChannel & Htemplates).
    fold out in Htemplates. rewrite Htemplates. reflexivity. }
  assert (H6 : exists b1 r1 r2,
             sectionBlocks 6 out =
             [paragraph b1; table r1; heading 2 "Individual Escalation Contacts"; table r2]).
  { subst out. section_blocks. do 3 eexists. reflexivity. }
  destruct H6 as (b1 & r1 & r2 & H6). rewrite H6, Hdiag.
  repeat split.
Qed.

(** The scenario of C1 on the sample incident with Alice and Bob. *)
Lemma C1_end_to_end_scenario_witness :
  let out := generateRunbook sampleDate "2026-02-26T14:05:00.000Z" sampleIncident
               [alice; bob] [] in
  out.(RunbookOutput.incidentCommander) = Some alice /\
  option_map Stakeholder.name out.(RunbookOutput.incidentCommander) = Some "Alice"%string /\
  out.(RunbookOutput.technicalLead) = Some bob /\
  option_map Stakeholder.name out.(RunbookOutput.technicalLead) = Some "Bob"%string /\
  out.(RunbookOutput.commsLead) = None /\
  out.(RunbookOutput.slackChannel) = "#incinc0001"%string /\
  length out.(RunbookOutput.emailTemplates) = 6 /\
  existsb (isHeading "Vendor / Third-Party Escalation") (sectionBlocks 6 out) = false /\
  length (filter isTable (sectionBlocks 6 out)) = 2 /\
  length (sectionBlocks 6 out) = 4 /\
  diagnosisSteps out = getDatabaseDiagnosisSteps sampleIncident /\
  length (diagnosisSteps out) = 7.
Proof.
  apply (C1_end_to_end_scenario sampleDate "2026-02-26T14:05:00.000Z" sampleIncident
           alice bob); reflexivity.
Defined.

(** C2 (amended).  For every stakeholder list the output holds
    six e-mail templates, in a fixed order of phases.  With I the e-mails of
    the stakeholders that have notify_immediately set or escalation level 1,
    L2 those of level 2 and L3 those of level 3, each in list order:
    templates 1 and 2 go to I with L2 in copy; templates 3, 4 and 6 go to I
    followed by L2, with L3 in copy; template 5 goes to all stakeholders
    with nobody in copy.  No recipient list holds an e-mail twice when the
    stakeholders have pairwise distinct e-mails and no stakeholder of level 2
    has notify_immediately set.  For [A; B; C] with A of level 1 and
    notify_immediately, B of level 2 and C of level 3, neither with
    notify_immediately: template 1 goes to [A] with [B] in copy, template 3
    to [A; B] with [C] in copy, template 5 to [A; B; C] with nobody in copy. *)
Theorem C2_email_recipient_rules :
  forall (parse : string -> option string) (now : string) (incident : Incident.t)
         (vendors : list VendorEscalation.t),
    (forall stakeholders : list Stakeholder.t,
        let out := generateRunbook parse now incident stakeholders vendors in
        let immediate := emailsOf isImmediate stakeholders in
        let level2 := emailsOf (isLevel 2) stakeholders in
        let level3 := emailsOf (isLevel 3) stakeholders in
        let everyone := map Stakeholder.email stakeholders in
        map routing out.(RunbookOutput.emailTemplates) =
          [ ("Initial Incident Notification"%string, immediate, level2);
            ("War Room / Bridge Established"%string, immediate, level2);
            ("30-Minute Status Update"%string, immediate ++ level2, level3);
            ("Mitigation In Progress"%string, immediate ++ level2, level3);
            ("Service Restored"%string, everyone, []);
            ("Incident Closed + PIR Invitation"%string, immediate ++ level2, level3) ] /\
        (NoDup (map Stakeholder.email stakeholders) ->
         (forall s, In s stakeholders ->
            s.(Stakeholder.escalation_level) = 2 ->
            s.(Stakeholder.notify_immediately) = false) ->
         Forall (fun t => NoDup t.(EmailTemplate.to)) out.(RunbookOutput.emailTemplates))) /\
    (forall a b c : Stakeholder.t,
        a.(Stakeholder.escalation_level) = 1 -> a.(Stakeholder.notify_immediately) = true ->
        b.(Stakeholder.escalation_level) = 2 -> b.(Stakeholder.notify_immediately) = false ->
        c.(Stakeholder.escalation_level) = 3 -> c.(Stakeholder.notify_immediately) = false ->
        let out := generateRunbook parse now incident [a; b; c] vendors in
        let ea := a.(Stakeholder.email) in
        let eb := b.(Stakeholder.email) in
        let ec := c.(Stakeholder.email) in
        map (fun t => (t.(EmailTemplate.to), t.(EmailTemplate.cc)))
            out.(RunbookOutput.emailTemplates) =
          [ ([ea], [eb]); ([ea], [eb]); ([ea; eb], [ec]); ([ea; eb], [ec]);
            ([ea; eb; ec], []); ([ea; eb], [ec]) ]).
Proof.
  intros parse now incident vendors. split.
  - intros stakeholders out immediate level2 level3 everyone.
    destruct (generateRunbook_emailTemplates parse now incident stakeholders vendors)
      as (ic & commsLead & zoomUrl & slackChannel & Htemplates).
    fold out in Htemplates. rewrite Htemplates. split; [reflexivity |].
    intros Hdistinct Hlevel2.
    assert (Himm : NoDup immediate) by now apply NoDup_map_filter.
    assert (Hboth : NoDup (immediate ++ level2))
      by now apply immediate_level2_recipients_distinct.
    unfold buildEmailTemplates. cbv zeta.
    repeat (constructor; [cbn [EmailTemplate.to]; assumption |]). constructor.
  - intros a b c Ha1 Ha2 Hb1 Hb2 Hc1 Hc2 out ea eb ec.
    destruct (generateRunbook_emailTemplates parse now incident [a; b; c] vendors)
      as (ic & commsLead & zoomUrl & slackChannel & Htemplates).
    fold out in Htemplates. rewrite Htemplates.
    unfold buildEmailTemplates. cbv zeta.
    cbn [map filter EmailTemplate.to EmailTemplate.cc app].
    rewrite Ha1, Ha2, Hb1, Hb2, Hc1, Hc2.
    reflexivity.
Qed.

(** The rules of C2 on the stakeholders A, B and C of the specification. *)
Lemma C2_email_recipient_rules_witness :
  Forall (fun t => NoDup t.(EmailTemplate.to))
    (RunbookOutput.emailTemplates
       (generateRunbook sampleDate "2026-02-26T14:05:00.000Z" sampleIncident
          [stakeholderA; stakeholderB; stakeholderC] [])) /\
  map (fun t => (t.(EmailTemplate.to), t.(EmailTemplate.cc)))
    (RunbookOutput.emailTemplates
       (generateRunbook sampleDate "2026-02-26T14:05:00.000Z" sampleIncident
          [stakeholderA; stakeholderB; stakeholderC] [])) =
  [ (["a@example.com"], ["b@example.com"]);
    (["a@example.com"], ["b@example.com"]);
    (["a@example.com"; "b@example.com"], ["c@example.com"]);
    (["a@example.com"; "b@example.com"], ["c@example.com"]);
    (["a@example.com"; "b@example.com"; "c@example.com"], []);
    (["a@example.com"; "b@example.com"], ["c@example.com"]) ]%string.
Proof.
  destruct (C2_email_recipient_rules sampleDate "2026-02-26T14:05:00.000Z"
              sampleIncident []) as [Hrules Habc].
  split.
  - apply (Hrules [stakeholderA; stakeholderB; stakeholderC]).
    + cbn [map stakeholderA stakeholderB stakeholderC person Stakeholder.email].
      repeat (constructor; [cbn [In]; intuition discriminate |]). constructor.
    + intros s [<- | [<- | [<- | []]]]; cbn; congruence.
  - apply (Habc stakeholderA stakeholderB stakeholderC); reflexivity.
Defined.

(** Against C2 where the specification says that no recipient list holds
    the same stakeholder's e-mail twice: Dana has escalation level 2
    and notify_immediately set, and template 3 names her twice. *)
Lemma C2_counterexample_duplicate_recipient :
  exists t,
    nth_error
      (RunbookOutput.emailTemplates
         (generateRunbook sampleDate "2026-02-26T14:05:00.000Z" sampleIncident
            [alice; dana] [])) 2 = Some t /\
    t.(EmailTemplate.phase) = "30-Minute Status Update"%string /\
    t.(EmailTemplate.to) =
      ["alice@example.com"; "dana@example.com"; "dana@example.com"]%string /\
    ~ NoDup t.(EmailTemplate.to).
Proof.
  eexists. split; [vm_compute; reflexivity |].
  cbn [EmailTemplate.phase EmailTemplate.to].
  split; [reflexivity |]. split; [reflexivity |].
  intros Hnd. inversion Hnd as [|? ? _ Hrest]; subst.
  inversion Hrest as [|? ? Hnotin _]; subst.
  apply Hnotin. left. reflexivity.
Qed.



(** C4.  Role resolution returns the first stakeholder, in list order,
    whose role text contains the keyword when letter case is ignored, and
    null when no stakeholder matches; this holds for every keyword, the
    five of the generator among them.  The Incident Commander, Technical
    Lead and Communications Lead of the output are resolved that way.  Of
    two stakeholders with the roles "Technical Lead (Primary)" and
    "Technical Lead (Secondary)", in that order, the first is the
    Technical Lead. *)
Theorem C4_role_resolution_first_match :
  forall (parse : string -> option string) (now : string) (incident : Incident.t)
         (stakeholders : list Stakeholder.t) (vendors : list VendorEscalation.t),
    let out := generateRunbook parse now incident stakeholders vendors in
    (forall roleKeyword,
        match findByRole stakeholders roleKeyword with
        | Some s =>
            exists before after,
              stakeholders = before ++ s :: after /\
              RoleMatches roleKeyword s /\
              Forall (fun x => ~ RoleMatches roleKeyword x) before
        | None => Forall (fun x => ~ RoleMatches roleKeyword x) stakeholders
        end) /\
    out.(RunbookOutput.incidentCommander) = findByRole stakeholders "Incident Commander" /\
    out.(RunbookOutput.technicalLead) = findByRole stakeholders "Technical Lead" /\
    out.(RunbookOutput.commsLead) = findByRole stakeholders "Communications Lead" /\
    (forall first second,
        stakeholders = [first; second] ->
        first.(Stakeholder.role) = "Technical Lead (Primary)" ->
        second.(Stakeholder.role) = "Technical Lead (Secondary)" ->
        out.(RunbookOutput.technicalLead) = Some first).
Proof.
  intros parse now incident stakeholders vendors out.
  destruct (generateRunbook_roles parse now incident stakeholders vendors)
    as (Hic & Htech & Hcomms).
  split; [intros roleKeyword; apply findByRole_first |].
  repeat split; try assumption.
  intros first second -> Hfirst Hsecond.
  subst out. rewrite Htech. unfold findByRole; cbn [find].
  rewrite Hfirst. reflexivity.
Qed.

(** C4 on a primary and a secondary Technical Lead. *)
Lemma C4_role_resolution_first_match_witness :
  RunbookOutput.technicalLead
    (generateRunbook sampleDate "2026-02-26T14:05:00.000Z" sampleIncident
       [primaryLead; secondaryLead] []) = Some primaryLead.
Proof.
  apply (proj2 (proj2 (proj2 (proj2
           (C4_role_resolution_first_match sampleDate "2026-02-26T14:05:00.000Z"
              sampleIncident [primaryLead; secondaryLead] [])))))
    with (second := secondaryLead); reflexivity.
Defined.

(** C5.  For every input the action ledger of the output carries the
    identifiers ACT-001, ACT-002, ... in order, one per item, numbered from
    1 without gap or repeat up to the length of the ledger (which is 23,
    whatever the input). *)
Theorem C5_action_ids_sequential :
  forall (parse : string -> option string) (now : string) (incident : Incident.t)
         (stakeholders : list Stakeholder.t) (vendors : list VendorEscalation.t),
    let ledger :=
      RunbookOutput.actionItems (generateRunbook parse now incident stakeholders vendors) in
    map ActionItem.id ledger = map actId (seq 1 (length ledger)) /\
    length ledger = 23 /\
    map ActionItem.id ledger =
      ["ACT-001"; "ACT-002"; "ACT-003"; "ACT-004"; "ACT-005"; "ACT-006";
       "ACT-007"; "ACT-008"; "ACT-009"; "ACT-010"; "ACT-011"; "ACT-012";
       "ACT-013"; "ACT-014"; "ACT-015"; "ACT-016"; "ACT-017"; "ACT-018";
       "ACT-019"; "ACT-020"; "ACT-021"; "ACT-022"; "ACT-023"]%string /\
    NoDup (map ActionItem.id ledger).
Proof.
  intros parse now incident stakeholders vendors ledger.
  destruct (generateRunbook_ledger parse now incident stakeholders vendors)
    as [Hlen Hids].
  fold ledger in Hlen, Hids.
  assert (Hlist : map ActionItem.id ledger = map actId (seq 1 23)).
  { rewrite Hids, Hlen. reflexivity. }
  split; [exact Hids |]. split; [exact Hlen |]. split.
  - rewrite Hlist. reflexivity.
  - rewrite Hlist. vm_compute.
    repeat (constructor; [cbn [In]; intuition discriminate |]). constructor.
Qed.

(** C6.  For every stakeholder list the escalation ledger of the output has
    one entry per stakeholder, in the order of the list, with the
    identifiers ESC-001, ESC-002, ... up to the number of stakeholders; each
    entry carries the name and the role of its stakeholder. *)
Theorem C6_escalation_ledger_complete :
  forall (parse : string -> option string) (now : string) (incident : Incident.t)
         (vendors : list VendorEscalation.t),
    (forall stakeholders : list Stakeholder.t,
        let ledger :=
          RunbookOutput.escalationEntries
            (generateRunbook parse now incident stakeholders vendors) in
        length ledger = length stakeholders /\
        map EscalationEntry.id ledger = map escId (seq 1 (length stakeholders)) /\
        map EscalationEntry.contactName ledger = map Stakeholder.name stakeholders /\
        map EscalationEntry.role ledger = map Stakeholder.role stakeholders) /\
    (forall a b c : Stakeholder.t,
        map EscalationEntry.id
          (RunbookOutput.escalationEntries
             (generateRunbook parse now incident [a; b; c] vendors)) =
        ["ESC-001"; "ESC-002"; "ESC-003"]%string).
Proof.
  intros parse now incident vendors. split.
  - intros stakeholders ledger. subst ledger.
    rewrite generateRunbook_escalationEntries.
    unfold buildEscalationEntries, mapi. repeat split.
    + apply mapiFrom_length.
    + rewrite mapiFrom_map with (h := fun _ k => escId (k + 1)) by reflexivity.
      apply (mapiFrom_index escId).
    + rewrite mapiFrom_map with (h := fun s _ => s.(Stakeholder.name)) by reflexivity.
      apply mapiFrom_element.
    + rewrite mapiFrom_map with (h := fun s _ => s.(Stakeholder.role)) by reflexivity.
      apply mapiFrom_element.
  - intros a b c. rewrite generateRunbook_escalationEntries. reflexivity.
Qed.










